(** * pip-accel: the Amazon S3 cache backend ([pip_accel/caches/s3.py])

    A shallow embedding of [S3CacheBackend]: its configuration, the two
    memoized handles ([cached_connection], [cached_bucket]), the operations
    [get], [put], [s3_bucket], [s3_connection], [get_cache_key] and
    [check_prerequisites], run against an in-memory model of what lies outside
    the module (the boto client, the local file system, a few functions of the
    Python standard library). *)

From Stdlib Require Import ZArith String Ascii Strings.Byte.
From stdpp Require Import base option list gmap strings fin_maps.

Local Open Scope Z_scope.
Local Open Scope string_scope.
Local Open Scope list_scope.

(** ** Python strings and paths *)

Module Py.

(** Truth value of a [str]: only the empty string is falsy. *)
Definition str_truthy (s : string) : bool := negb (String.eqb s "").

(** Truth value of an attribute that is [None] or a [str]. *)
Definition truthy (o : option string) : bool :=
  match o with
  | Some s => str_truthy s
  | None => false
  end.

(** [filter(None, items)]: the truthy items, in order. *)
Fixpoint filter_None (items : list (option string)) : list string :=
  match items with
  | [] => []
  | Some s :: rest => if str_truthy s then s :: filter_None rest else filter_None rest
  | None :: rest => filter_None rest
  end.

(** [sep.join(items)]. *)
Fixpoint join (sep : string) (items : list string) : string :=
  match items with
  | [] => ""
  | [s] => s
  | s :: rest => s +:+ sep +:+ join sep rest
  end.

(** [s.partition(sep)] for a one-character separator: the part before the
    first occurrence, the separator, the part after; [(s, "", "")] when the
    separator does not occur. *)
Fixpoint partition (sep : ascii) (s : string) : string * string * string :=
  match s with
  | EmptyString => ("", "", "")
  | String c rest =>
      if Ascii.eqb c sep then ("", String sep "", rest)
      else let '(before, found, after) := partition sep rest in
           (String c before, found, after)
  end.

Definition startswith_sep (s : string) : bool :=
  match s with
  | String c _ => Ascii.eqb c "/"
  | EmptyString => false
  end.

Fixpoint endswith_sep (s : string) : bool :=
  match s with
  | EmptyString => false
  | String c EmptyString => Ascii.eqb c "/"
  | String _ rest => endswith_sep rest
  end.

(** [os.path.join(a, b)] (posixpath, two components). *)
Definition os_path_join (a b : string) : string :=
  if startswith_sep b then b
  else if negb (str_truthy a) || endswith_sep a then a +:+ b
  else a +:+ "/" +:+ b.

(** Drop the leading characters equal to ["/"]. *)
Fixpoint lstrip_sep (l : list ascii) : list ascii :=
  match l with
  | c :: rest => if Ascii.eqb c "/" then lstrip_sep rest else l
  | [] => []
  end.

(** Drop the leading characters up to, not including, the first ["/"]. *)
Fixpoint drop_to_sep (l : list ascii) : list ascii :=
  match l with
  | c :: rest => if Ascii.eqb c "/" then l else drop_to_sep rest
  | [] => []
  end.

(** [os.path.dirname(p)] (posixpath): everything up to the last ["/"], with
    the trailing slashes removed unless the head is made of slashes only. *)
Definition os_path_dirname (p : string) : string :=
  let head := drop_to_sep (rev (list_ascii_of_string p)) in
  match lstrip_sep head with
  | [] => string_of_list_ascii (rev head)
  | stripped => string_of_list_ascii (rev stripped)
  end.

End Py.

(** ** Configuration ([self.config]) *)

Definition bytes := list Byte.byte.

Record Config := mkConfig {
  s3_cache_bucket : option string;   (* unset is [None] *)
  s3_cache_url : string;
  s3_cache_prefix : option string;
  s3_cache_readonly : bool;
  s3_cache_create_bucket : bool;
  binary_cache : string;
}.

(** [S3CacheBackend.get_cache_key]. *)
Definition get_cache_key (cfg : Config) (filename : string) : string :=
  Py.join "/" (Py.filter_None [s3_cache_prefix cfg; Some filename]).

(** ** Exceptions *)

(** The exception classes the module names, and the others it can meet.
    [CacheBackendDisabledError] and [CacheBackendError] are pip-accel's own
    ([pip_accel.exceptions]); [BotoClientError], [BotoServerError] and
    [S3ResponseError] are boto's, [S3ResponseError] with the HTTP status of the
    response. *)
Inductive exn : Type :=
| CacheBackendDisabledError
| CacheBackendError
| BotoClientError
| BotoServerError
| S3ResponseError (status : Z)
| ImportError
| ValueError
| OSError
| AttributeError
| OtherException (name : string).

(** [isinstance(e, S3ResponseError)]. *)
Definition is_S3ResponseError (e : exn) : bool :=
  match e with
  | S3ResponseError _ => true
  | _ => false
  end.

(** [isinstance(e, (BotoClientError, BotoServerError))]. In boto
    [S3ResponseError] derives from [BotoServerError]. *)
Definition is_BotoClientError_or_BotoServerError (e : exn) : bool :=
  match e with
  | BotoClientError | BotoServerError | S3ResponseError _ => true
  | _ => false
  end.

(** The two kinds of the backend's error taxonomy. *)
Definition is_backend_exception (e : exn) : bool :=
  match e with
  | CacheBackendDisabledError | CacheBackendError => true
  | _ => false
  end.

(** [e.status] of an [S3ResponseError]. *)
Definition status_of (e : exn) : option Z :=
  match e with
  | S3ResponseError st => Some st
  | _ => None
  end.

(** ** Handles of the boto client *)

Inductive CallingFormat := SubdomainCallingFormat | OrdinaryCallingFormat.

Record Connection := mkConnection {
  conn_host : string;
  conn_port : Z;
  conn_is_secure : bool;
  conn_calling_format : CallingFormat;
}.

Record Bucket := mkBucket {
  bucket_connection : Connection;
  bucket_name : option string;
}.

Record Key := mkKey {
  key_bucket : Bucket;
  key_name : string;
}.

(** ** The world: the backend instance and what surrounds it *)

(** What a call returns: a value, or a raised exception. *)
Inductive res (A : Type) : Type :=
| Ok (a : A)
| Raise (e : exn).
Arguments Ok {A} a.
Arguments Raise {A} e.

(** The calls made to the boto client. *)
Inductive call : Type :=
| call_S3Connection (host : string) (port : Z) (is_secure : bool) (fmt : CallingFormat)
| call_get_bucket (name : option string)
| call_create_bucket (name : option string)
| call_get_key (bucket : option string) (key : string)
| call_get_contents_to_filename (bucket : option string) (key : string) (local_file : string)
| call_set_contents_from_file (bucket : option string) (key : string) (data : bytes).

(** A logged call, with what it raised ([None]: it returned). *)
Record event := mkEvent {
  ev_call : call;
  ev_raised : option exn;
}.

(** What a failed download leaves at its destination path. *)
Inductive residue : Type :=
| Untouched
| Removed
| Partial (written : bytes).

(** A failure of one call to the client: the exception raised and, for a
    download, the state of the destination file. *)
Record failure := mkFailure {
  fail_exn : exn;
  fail_residue : residue;
}.

(** [urlparse] result: the two fields the module reads. *)
Record ParseResult := mkParseResult {
  scheme : string;
  netloc : string;
}.

(** Functions of the Python standard library the module calls and that this
    development takes as given: [urlparse] and [int] on a string. *)
Record PyLib := mkPyLib {
  py_urlparse : string -> res ParseResult;
  py_int : string -> res Z;
}.

Record World := mkWorld {
  (* attributes of the backend instance *)
  cached_connection : option Connection;
  cached_bucket : option Bucket;
  (* the Python installation *)
  boto_installed : bool;
  pylib : PyLib;
  (* the remote store: bucket name to objects by key *)
  buckets : gmap string (gmap string bytes);
  (* the local file system *)
  dirs : gset string;
  files : gmap string bytes;
  (* the failures the client will meet, one entry per call, in order *)
  faults : list (option failure);
  (* the calls made to the client so far *)
  log : list event;
}.

Definition set_cached_connection (c : option Connection) (w : World) : World :=
  mkWorld c (cached_bucket w) (boto_installed w) (pylib w) (buckets w)
          (dirs w) (files w) (faults w) (log w).

Definition set_cached_bucket (b : option Bucket) (w : World) : World :=
  mkWorld (cached_connection w) b (boto_installed w) (pylib w) (buckets w)
          (dirs w) (files w) (faults w) (log w).

Definition set_buckets (bs : gmap string (gmap string bytes)) (w : World) : World :=
  mkWorld (cached_connection w) (cached_bucket w) (boto_installed w) (pylib w) bs
          (dirs w) (files w) (faults w) (log w).

Definition set_dirs (ds : gset string) (w : World) : World :=
  mkWorld (cached_connection w) (cached_bucket w) (boto_installed w) (pylib w)
          (buckets w) ds (files w) (faults w) (log w).

Definition set_files (fs : gmap string bytes) (w : World) : World :=
  mkWorld (cached_connection w) (cached_bucket w) (boto_installed w) (pylib w)
          (buckets w) (dirs w) fs (faults w) (log w).

Definition set_faults (fl : list (option failure)) (w : World) : World :=
  mkWorld (cached_connection w) (cached_bucket w) (boto_installed w) (pylib w)
          (buckets w) (dirs w) (files w) fl (log w).

Definition add_event (c : call) (r : option exn) (w : World) : World :=
  mkWorld (cached_connection w) (cached_bucket w) (boto_installed w) (pylib w)
          (buckets w) (dirs w) (files w) (faults w) (log w ++ [mkEvent c r]).

(** ** Computations: state passing with exceptions

    The state reached when an exception is raised is kept: an attribute set
    before a failure stays set. *)

Definition M (A : Type) : Type := World -> res A * World.

Definition ret {A} (a : A) : M A := fun w => (Ok a, w).

Definition raise {A} (e : exn) : M A := fun w => (Raise e, w).

Definition bind {A B} (m : M A) (k : A -> M B) : M B :=
  fun w =>
    match m w with
    | (Ok a, w') => k a w'
    | (Raise e, w') => (Raise e, w')
    end.

(** [try: body except <classes> as e: handler e]. *)
Definition try_except {A} (body : M A) (classes : exn -> bool) (handler : exn -> M A) : M A :=
  fun w =>
    match body w with
    | (Ok a, w') => (Ok a, w')
    | (Raise e, w') => if classes e then handler e w' else (Raise e, w')
    end.

(** A pure call that may raise. *)
Definition lift {A} (r : res A) : M A := fun w => (r, w).

Declare Scope s3_scope.
Delimit Scope s3_scope with s3.
Notation "'let*' x ':=' m 'in' k" := (bind m (fun x => k))
  (at level 10, x name, m at level 100, k at level 200) : s3_scope.
Notation "m '>>' k" := (bind m (fun _ => k))
  (at level 100, k at level 200, right associativity) : s3_scope.
Local Open Scope s3_scope.

(** ** The boto client: an in-memory store with scripted failures *)

Module Boto.

(** The failure scripted for the [n]-th call from now ([0]: the next one);
    [None] when that call is to behave normally. *)
Definition failure_at (n : nat) (w : World) : option failure :=
  nth n (faults w) None.

(** The next entry of the failure script, consumed; an exhausted script
    means the call behaves normally. *)
Definition next_fault (w : World) : option failure * World :=
  (failure_at 0 w, set_faults (tail (faults w)) w).

(** A call to the client: a scripted failure raises, otherwise [normal]
    decides; either way the call is logged with its outcome. *)
Definition transport {A} (c : call) (normal : M A) : M A :=
  fun w =>
    match next_fault w with
    | (Some f, w1) => (Raise (fail_exn f), add_event c (Some (fail_exn f)) w1)
    | (None, w1) =>
        match normal w1 with
        | (Ok a, w2) => (Ok a, add_event c None w2)
        | (Raise e, w2) => (Raise e, add_event c (Some e) w2)
        end
    end.

Definition lookup_bucket (name : option string) (w : World) : option (gmap string bytes) :=
  match name with
  | Some n => buckets w !! n
  | None => None
  end.

Definition lookup_object (name : option string) (key : string) (w : World) : option bytes :=
  match lookup_bucket name w with
  | Some objs => objs !! key
  | None => None
  end.

(** [S3Connection(host=..., port=..., is_secure=..., calling_format=...)]. *)
Definition S3Connection (host : string) (port : Z) (is_secure : bool)
    (fmt : CallingFormat) : M Connection :=
  transport (call_S3Connection host port is_secure fmt)
            (ret (mkConnection host port is_secure fmt)).

(** [connection.get_bucket(name)]: a handle on an existing bucket, status
    404 for a missing one. *)
Definition get_bucket (conn : Connection) (name : option string) : M Bucket :=
  transport (call_get_bucket name)
    (fun w => match lookup_bucket name w with
              | Some _ => (Ok (mkBucket conn name), w)
              | None => (Raise (S3ResponseError 404), w)
              end).

(** [connection.create_bucket(name)]. *)
Definition create_bucket (conn : Connection) (name : option string) : M unit :=
  transport (call_create_bucket name)
    (fun w => match name with
              | Some n =>
                  match buckets w !! n with
                  | Some _ => (Raise (S3ResponseError 409), w)
                  | None => (Ok tt, set_buckets (<[n := ∅]> (buckets w)) w)
                  end
              | None => (Raise (S3ResponseError 400), w)
              end).

(** [bucket.get_key(key_name)]: [None] when the remote answers not found. *)
Definition get_key (b : Bucket) (key : string) : M (option Key) :=
  transport (call_get_key (bucket_name b) key)
    (fun w => match lookup_object (bucket_name b) key w with
              | Some _ => (Ok (Some (mkKey b key)), w)
              | None => (Ok None, w)
              end).

(** The destination file after a failed download. *)
Definition leave (r : residue) (path : string) (fs : gmap string bytes) : gmap string bytes :=
  match r with
  | Untouched => fs
  | Removed => delete path fs
  | Partial written => <[path := written]> fs
  end.

(** [key.get_contents_to_filename(local_file)]: opens the destination for
    writing (its directory must exist) and stores the object's bytes in it. A
    scripted failure leaves the destination as the script says. *)
Definition get_contents_to_filename (k : Key) (local_file : string) : M unit :=
  let c := call_get_contents_to_filename (bucket_name (key_bucket k)) (key_name k) local_file in
  fun w =>
    match next_fault w with
    | (Some f, w1) =>
        (Raise (fail_exn f),
         add_event c (Some (fail_exn f))
                   (set_files (leave (fail_residue f) local_file (files w1)) w1))
    | (None, w1) =>
        if bool_decide (Py.os_path_dirname local_file ∈ dirs w1) then
          match lookup_object (bucket_name (key_bucket k)) (key_name k) w1 with
          | Some data => (Ok tt, add_event c None (set_files (<[local_file := data]> (files w1)) w1))
          | None => (Raise (S3ResponseError 404), add_event c (Some (S3ResponseError 404)) w1)
          end
        else (Raise OSError, add_event c (Some OSError) w1)
    end.

(** [key.set_contents_from_file(handle)]: stores the bytes of [handle] under
    the key, replacing what was there. *)
Definition set_contents_from_file (k : Key) (handle : bytes) : M unit :=
  transport (call_set_contents_from_file (bucket_name (key_bucket k)) (key_name k) handle)
    (fun w => match bucket_name (key_bucket k) with
              | Some n =>
                  match buckets w !! n with
                  | Some objs =>
                      (Ok tt, set_buckets (<[n := <[key_name k := handle]> objs]> (buckets w)) w)
                  | None => (Raise (S3ResponseError 404), w)
                  end
              | None => (Raise (S3ResponseError 404), w)
              end).

End Boto.

(** ** The local file system *)

Module Fs.

(** [path] and the directories above it, [fuel] levels up. *)
Fixpoint with_parents (fuel : nat) (path : string) : list string :=
  match fuel with
  | O => []
  | S n =>
      if Py.str_truthy path
      then path :: (if String.eqb (Py.os_path_dirname path) path then []
                    else with_parents n (Py.os_path_dirname path))
      else []
  end.

(** Modelled from the spec: [pip_accel.utils.makedirs] is not among the
    sources; the spec has the download happen after "creating intermediate
    directories as needed". The directory and the missing directories above
    it are created; an existing directory is not an error. As [os.makedirs]
    does, it raises [OSError] on the empty path. *)
Definition makedirs (path : string) : M unit :=
  fun w =>
    if Py.str_truthy path
    then (Ok tt, set_dirs (list_to_set (with_parents (S (String.length path)) path) ∪ dirs w) w)
    else (Raise OSError, w).

End Fs.

(** ** The backend: [class S3CacheBackend(AbstractCacheBackend)] *)

Definition PRIORITY : Z := 20.

(** [from boto... import ...] inside a method body. *)
Definition import_boto : M unit :=
  fun w => if boto_installed w then (Ok tt, w) else (Raise ImportError, w).

(** [S3CacheBackend.check_prerequisites]. *)
Definition check_prerequisites (cfg : Config) : M unit :=
  if negb (Py.truthy (s3_cache_bucket cfg)) then raise CacheBackendDisabledError
  else try_except import_boto
                  (fun e => match e with ImportError => true | _ => false end)
                  (fun _ => raise CacheBackendDisabledError).

(** Reading [self.cached_connection] / [self.cached_bucket]. *)
Definition read_cached_connection : M Connection :=
  fun w => match cached_connection w with
           | Some c => (Ok c, w)
           | None => (Raise AttributeError, w)
           end.

Definition read_cached_bucket : M Bucket :=
  fun w => match cached_bucket w with
           | Some b => (Ok b, w)
           | None => (Raise AttributeError, w)
           end.

(** The port handed to [S3Connection]:
    [int(port) if port else 443 if is_secure else 80]. *)
Definition connection_port (port : string) (is_secure : bool) : M Z :=
  if Py.str_truthy port then fun w => (py_int (pylib w) port, w)
  else ret (if is_secure then 443 else 80).

(** The property [S3CacheBackend.s3_connection]. *)
Definition s3_connection (cfg : Config) : M Connection :=
  fun w =>
    (if bool_decide (cached_connection w = None) then   (* not hasattr(self, 'cached_connection') *)
       import_boto >>
       try_except
         (let* endpoint := (fun w => (py_urlparse (pylib w) (s3_cache_url cfg), w)) in
          let '(host, _, port) := Py.partition ":" (netloc endpoint) in
          let is_secure := String.eqb (scheme endpoint) "https" in
          let* port_number := connection_port port is_secure in
          let* c := Boto.S3Connection host port_number is_secure
                      (if String.eqb host "s3.amazonaws.com"
                       then SubdomainCallingFormat else OrdinaryCallingFormat) in
          fun w => (Ok tt, set_cached_connection (Some c) w))
         is_BotoClientError_or_BotoServerError
         (fun _ => raise CacheBackendError) >>
       read_cached_connection
     else read_cached_connection) w.

(** The property [S3CacheBackend.s3_bucket]. *)
Definition s3_bucket (cfg : Config) : M Bucket :=
  fun w =>
    (if bool_decide (cached_bucket w = None) then       (* not hasattr(self, 'cached_bucket') *)
       import_boto >>
       try_except
         (try_except
            (let* conn := s3_connection cfg in
             let* b := Boto.get_bucket conn (s3_cache_bucket cfg) in
             fun w => (Ok tt, set_cached_bucket (Some b) w))
            is_S3ResponseError
            (fun e =>
               if bool_decide (status_of e = Some 404) && s3_cache_create_bucket cfg then
                 let* conn := s3_connection cfg in
                 Boto.create_bucket conn (s3_cache_bucket cfg) >>
                 let* conn' := s3_connection cfg in
                 let* b := Boto.get_bucket conn' (s3_cache_bucket cfg) in
                 fun w => (Ok tt, set_cached_bucket (Some b) w)
               else raise e))
         is_BotoClientError_or_BotoServerError
         (fun _ => raise CacheBackendError) >>
       read_cached_bucket
     else read_cached_bucket) w.

(** [S3CacheBackend.get]: the pathname of the downloaded archive, or [None]. *)
Definition get (cfg : Config) (filename : string) : M (option string) :=
  check_prerequisites cfg >>
  let raw_key := get_cache_key cfg filename in
  let* bucket := s3_bucket cfg in
  let* key := Boto.get_key bucket raw_key in
  match key with
  | None => ret None
  | Some key =>
      let local_file := Py.os_path_join (binary_cache cfg) filename in
      Fs.makedirs (Py.os_path_dirname local_file) >>
      Boto.get_contents_to_filename key local_file >>
      ret (Some local_file)
  end.

(** [S3CacheBackend.put]; [handle] is the content the file object yields. *)
Definition put (cfg : Config) (filename : string) (handle : bytes) : M unit :=
  if s3_cache_readonly cfg then ret tt
  else
    check_prerequisites cfg >>
    import_boto >>                                      (* from boto.s3.key import Key *)
    let raw_key := get_cache_key cfg filename in
    let* bucket := s3_bucket cfg in
    let key := mkKey bucket raw_key in
    Boto.set_contents_from_file key handle.

(** ** Sequences of operations on one instance *)

Inductive operation : Type :=
| op_get (filename : string)
| op_put (filename : string) (handle : bytes).

(** One operation on the instance; [put] returns [None], as a Python method
    without a [return] does. *)
Definition perform (cfg : Config) (o : operation) : M (option string) :=
  match o with
  | op_get filename => get cfg filename
  | op_put filename handle => put cfg filename handle >> ret None
  end.

(** The world after one operation, whatever it returned or raised. *)
Definition run_operation (cfg : Config) (o : operation) (w : World) : World :=
  snd (perform cfg o w).

Definition run_operations (cfg : Config) (ops : list operation) (w : World) : World :=
  fold_left (fun w o => run_operation cfg o w) ops w.

(** A new instance: no handle memoized yet, no call made yet. *)
Definition new_instance (w : World) : Prop :=
  cached_connection w = None /\ cached_bucket w = None /\ log w = [].

Definition is_connect (c : call) : bool :=
  match c with call_S3Connection _ _ _ _ => true | _ => false end.

Definition is_get_bucket (c : call) : bool :=
  match c with call_get_bucket _ => true | _ => false end.

Definition is_create_bucket (c : call) : bool :=
  match c with call_create_bucket _ => true | _ => false end.

Definition returned (ev : event) : bool :=
  match ev_raised ev with None => true | Some _ => false end.

(** How many logged calls of a kind returned a value. *)
Definition created (kind : call -> bool) (l : list event) : nat :=
  length (filter (fun ev => kind (ev_call ev) && returned ev = true) l).

(** How many logged calls of a kind were made. *)
Definition attempts (kind : call -> bool) (l : list event) : nat :=
  length (filter (fun ev => kind (ev_call ev) = true) l).

(** ** Outcomes of the two memoized properties

    The relations below list what a call of [s3_connection] and of [s3_bucket]
    can do; the lemmas [s3_connection_outcome] and [s3_bucket_outcome] show
    that the two properties do nothing else. *)

Definition exn_of {A} (r : res A) : option exn :=
  match r with
  | Ok _ => None
  | Raise e => Some e
  end.

(** What the handlers [except (BotoClientError, BotoServerError)] make of an
    exception. *)
Definition translated (e : exn) : exn :=
  if is_BotoClientError_or_BotoServerError e then CacheBackendError else e.

(** Calls that establish the connection or resolve the bucket. *)
Definition is_resolution (c : call) : bool :=
  is_connect c || is_get_bucket c || is_create_bucket c.

(** One logged call to the client that leaves the local files alone: it
    consumes one entry of the failure script and touches neither the
    instance's attributes nor the local file system. *)
Record step (c : call) (x : option exn) (w w' : World) : Prop := mkStep {
  step_log : log w' = log w ++ [mkEvent c x];
  step_faults : faults w' = tail (faults w);
  step_cached_connection : cached_connection w' = cached_connection w;
  step_cached_bucket : cached_bucket w' = cached_bucket w;
  step_boto : boto_installed w' = boto_installed w;
  step_pylib : pylib w' = pylib w;
  step_dirs : dirs w' = dirs w;
  step_files : files w' = files w;
}.

(** The call [s3_connection] makes to open the connection, when the endpoint
    URL and its port can be read. *)
Definition endpoint_call (cfg : Config) (w : World) : res call :=
  match py_urlparse (pylib w) (s3_cache_url cfg) with
  | Raise e => Raise e
  | Ok endpoint =>
      let '(host, _, port) := Py.partition ":" (netloc endpoint) in
      let is_secure := String.eqb (scheme endpoint) "https" in
      match fst (connection_port port is_secure w) with
      | Raise e => Raise e
      | Ok port_number =>
          Ok (call_S3Connection host port_number is_secure
                (if String.eqb host "s3.amazonaws.com"
                 then SubdomainCallingFormat else OrdinaryCallingFormat))
      end
  end.

Inductive connection_outcome (cfg : Config) (w : World) : res Connection -> World -> Prop :=
| connection_memoized conn :
    cached_connection w = Some conn ->
    connection_outcome cfg w (Ok conn) w
| connection_no_boto :
    cached_connection w = None ->
    boto_installed w = false ->
    connection_outcome cfg w (Raise ImportError) w
| connection_no_endpoint e :
    cached_connection w = None ->
    boto_installed w = true ->
    endpoint_call cfg w = Raise e ->
    connection_outcome cfg w (Raise (translated e)) w
| connection_refused c e w' :
    cached_connection w = None ->
    boto_installed w = true ->
    endpoint_call cfg w = Ok c ->
    step c (Some e) w w' ->
    connection_outcome cfg w (Raise (translated e)) w'
| connection_opened c conn w' :
    cached_connection w = None ->
    boto_installed w = true ->
    endpoint_call cfg w = Ok c ->
    step c None w w' ->
    connection_outcome cfg w (Ok conn) (set_cached_connection (Some conn) w').

Inductive bucket_outcome (cfg : Config) (w : World) : res Bucket -> World -> Prop :=
| bucket_memoized b :
    cached_bucket w = Some b ->
    bucket_outcome cfg w (Ok b) w
| bucket_no_boto :
    cached_bucket w = None ->
    boto_installed w = false ->
    bucket_outcome cfg w (Raise ImportError) w
| bucket_no_connection e wc :
    cached_bucket w = None ->
    boto_installed w = true ->
    connection_outcome cfg w (Raise e) wc ->
    bucket_outcome cfg w (Raise e) wc
| bucket_fetched conn wc b w1 :
    cached_bucket w = None ->
    boto_installed w = true ->
    connection_outcome cfg w (Ok conn) wc ->
    step (call_get_bucket (s3_cache_bucket cfg)) None wc w1 ->
    bucket_outcome cfg w (Ok b) (set_cached_bucket (Some b) w1)
| bucket_refused conn wc e w1 :
    cached_bucket w = None ->
    boto_installed w = true ->
    connection_outcome cfg w (Ok conn) wc ->
    step (call_get_bucket (s3_cache_bucket cfg)) (Some e) wc w1 ->
    is_S3ResponseError e && bool_decide (status_of e = Some 404)
      && s3_cache_create_bucket cfg = false ->
    bucket_outcome cfg w (Raise (translated e)) w1
| bucket_create_failed conn wc w1 e w2 :
    cached_bucket w = None ->
    boto_installed w = true ->
    connection_outcome cfg w (Ok conn) wc ->
    step (call_get_bucket (s3_cache_bucket cfg)) (Some (S3ResponseError 404)) wc w1 ->
    s3_cache_create_bucket cfg = true ->
    step (call_create_bucket (s3_cache_bucket cfg)) (Some e) w1 w2 ->
    bucket_outcome cfg w (Raise (translated e)) w2
| bucket_created_fetched conn wc w1 w2 b w3 :
    cached_bucket w = None ->
    boto_installed w = true ->
    connection_outcome cfg w (Ok conn) wc ->
    step (call_get_bucket (s3_cache_bucket cfg)) (Some (S3ResponseError 404)) wc w1 ->
    s3_cache_create_bucket cfg = true ->
    step (call_create_bucket (s3_cache_bucket cfg)) None w1 w2 ->
    step (call_get_bucket (s3_cache_bucket cfg)) None w2 w3 ->
    bucket_outcome cfg w (Ok b) (set_cached_bucket (Some b) w3)
| bucket_created_refused conn wc w1 w2 e w3 :
    cached_bucket w = None ->
    boto_installed w = true ->
    connection_outcome cfg w (Ok conn) wc ->
    step (call_get_bucket (s3_cache_bucket cfg)) (Some (S3ResponseError 404)) wc w1 ->
    s3_cache_create_bucket cfg = true ->
    step (call_create_bucket (s3_cache_bucket cfg)) None w1 w2 ->
    step (call_get_bucket (s3_cache_bucket cfg)) (Some e) w2 w3 ->
    bucket_outcome cfg w (Raise (translated e)) w3.

(** A computation that only reads or changes the remote store. *)
Definition remote_only {A} (m : M A) : Prop :=
  forall w r w', m w = (r, w') ->
    log w' = log w /\ faults w' = faults w /\
    cached_connection w' = cached_connection w /\ cached_bucket w' = cached_bucket w /\
    boto_installed w' = boto_installed w /\ pylib w' = pylib w /\
    dirs w' = dirs w /\ files w' = files w.

(** The events of a resolution: all of them establish the connection or
    resolve the bucket, and the last one tells the outcome. *)
Definition resolution_events {A} (r : res A) (evs : list event) : Prop :=
  Forall (fun ev => is_resolution (ev_call ev) = true) evs /\
  match r, last evs with
  | Ok _, Some ev => ev_raised ev = None
  | Raise e, Some ev => exists e0, ev_raised ev = Some e0 /\ e = translated e0
  | _, None => True
  end.

(** ** Memoization, over the log

    A handle is memoized exactly when a call creating it has returned, and no
    more than one such call ever returns. *)
Definition memoized_once (w : World) : Prop :=
  (cached_connection w = None <-> created is_connect (log w) = 0%nat) /\
  (created is_connect (log w) <= 1)%nat /\
  (cached_bucket w = None <-> created is_get_bucket (log w) = 0%nat) /\
  (created is_get_bucket (log w) <= 1)%nat.

(** The operation gets as far as asking for the bucket: the prerequisites
    hold and it is not a [put] in read-only mode. *)
Definition reaches_bucket (cfg : Config) (o : operation) (w : World) : Prop :=
  Py.truthy (s3_cache_bucket cfg) = true /\ boto_installed w = true /\
  match o with
  | op_get _ => True
  | op_put _ _ => s3_cache_readonly cfg = false
  end.

(** The connection is there already, or its endpoint can be read. *)
Definition endpoint_readable (cfg : Config) (w : World) : Prop :=
  cached_connection w <> None \/ exists c, endpoint_call cfg w = Ok c.

(** Whether a logged call returned. *)
Definition is_None {A} (x : option A) : bool :=
  match x with
  | None => true
  | Some _ => false
  end.

(** The attempt a resolution makes while no bucket is memoized: a new call
    opening the connection if none is memoized, a new fetch of the bucket
    otherwise. *)
Definition retried (w w' : World) : Prop :=
  if bool_decide (cached_connection w = None)
  then (attempts is_connect (log w) < attempts is_connect (log w'))%nat
  else (attempts is_get_bucket (log w) < attempts is_get_bucket (log w'))%nat.

(** ** Concrete worlds, used to run the model *)

Module Sample.

(** The standard library on the two endpoints used below. *)
Definition lib : PyLib :=
  mkPyLib
    (fun url =>
       if String.eqb url "https://s3.amazonaws.com"
       then Ok (mkParseResult "https" "s3.amazonaws.com")
       else if String.eqb url "http://localhost:9000"
       then Ok (mkParseResult "http" "localhost:9000")
       else Raise ValueError)
    (fun s => if String.eqb s "9000" then Ok 9000 else Raise ValueError).

Definition config : Config :=
  mkConfig (Some "wheels") "https://s3.amazonaws.com" (Some "myprefix") false false
           "/var/cache/pip-accel".

Definition config_readonly : Config :=
  mkConfig None "https://s3.amazonaws.com" None true false "/var/cache/pip-accel".

Definition config_unset : Config :=
  mkConfig None "https://s3.amazonaws.com" None false false "/var/cache/pip-accel".

Definition config_create : Config :=
  mkConfig (Some "wheels") "http://localhost:9000" None false true "/var/cache/pip-accel".

Definition archive : bytes := [x50; x4b; x03; x04].

(** A new instance facing a store with the bucket [wheels] holding one
    archive, boto installed, no failure scripted. *)
Definition world : World :=
  mkWorld None None true lib
          {[ "wheels" := {[ "myprefix/pkg-1.0.tar.gz" := archive ]} ]}
          ∅ ∅ [] [].

(** The same with a failure script. *)
Definition world_failing (script : list (option failure)) : World :=
  set_faults script world.

(** The same without boto. *)
Definition world_without_boto : World :=
  mkWorld None None false lib ∅ ∅ ∅ [] [].

(** A new instance facing an empty store. *)
Definition world_empty_store : World :=
  mkWorld None None true lib ∅ ∅ ∅ [] [].

(** The handle [s3_bucket] resolves in [world], and the world it leaves. *)
Definition bucket : Bucket :=
  mkBucket (mkConnection "s3.amazonaws.com" 443 true SubdomainCallingFormat) (Some "wheels").

Definition world_resolved : World :=
  snd (s3_bucket config world).

End Sample.

(** ** Further notions used by the properties *)

(** Whether the character [c] occurs in [s]. *)
Fixpoint str_contains (c : ascii) (s : string) : bool :=
  match s with
  | EmptyString => false
  | String x rest => Ascii.eqb x c || str_contains c rest
  end.

(** [m] changes the remote store only along [R]. *)
Definition keeps {A} (R : relation (gmap string (gmap string bytes))) (m : M A) : Prop :=
  forall w r w', m w = (r, w') -> R (buckets w) (buckets w').

(** The store after a resolution: as it was, or with the configured bucket,
    which was missing, added empty. *)
Definition created_at_most (cfg : Config) (bs bs' : gmap string (gmap string bytes)) : Prop :=
  bs' = bs \/
  exists n, s3_cache_bucket cfg = Some n /\ bs !! n = None /\ bs' = <[n := ∅]> bs.

Definition store_unchanged (bs bs' : gmap string (gmap string bytes)) : Prop := bs' = bs.


(** ** Further concrete worlds *)

Module Scenario.

Definition objects : gmap string bytes :=
  {[ "myprefix/pkg-1.0.tar.gz" := Sample.archive ]}.

Definition wheel : bytes := [x01; x02; x03].

(** An endpoint whose port is not a number. *)
Definition lib_bad_port : PyLib :=
  mkPyLib (fun _ => Ok (mkParseResult "http" "localhost:http"))
          (fun _ => Raise ValueError).

Definition world_bad_port : World :=
  mkWorld None None true lib_bad_port ∅ ∅ ∅ [] [].

Definition config_bad_port : Config :=
  mkConfig (Some "wheels") "http://localhost:http" None false false "/var/cache/pip-accel".


(** A connection that opens and a bucket fetch that meets a server error. *)
Definition world_refused : World :=
  Sample.world_failing [None; Some (mkFailure BotoServerError Untouched)].


End Scenario.

(** * Properties *)

(** ** The calls to the client, one step each *)

Lemma transport_step {A} c (normal : M A) w r w' :
  remote_only normal ->
  Boto.transport c normal w = (r, w') ->
  step c (exn_of r) w w'.
Proof.
  intros Hn. unfold Boto.transport, Boto.next_fault.
  destruct (Boto.failure_at 0 w) as [f|].
  - intros [= <- <-]. split; reflexivity.
  - destruct (normal _) as [[a|e] w2] eqn:Hw2; intros [= <- <-];
      apply Hn in Hw2; simpl in Hw2; destruct Hw2 as (?&?&?&?&?&?&?&?);
      split; simpl; congruence.
Qed.

Ltac remote_only_tac :=
  let w0 := fresh "w" in let r0 := fresh "r" in let w1 := fresh "w" in let H := fresh "H" in
  intros w0 r0 w1 H; unfold ret, raise in H; repeat case_match; simplify_eq/=; repeat split; reflexivity.

Lemma S3Connection_step host port sec fmt w r w' :
  Boto.S3Connection host port sec fmt w = (r, w') ->
  step (call_S3Connection host port sec fmt) (exn_of r) w w'.
Proof. apply transport_step. remote_only_tac. Qed.

Lemma get_bucket_step conn name w r w' :
  Boto.get_bucket conn name w = (r, w') ->
  step (call_get_bucket name) (exn_of r) w w'.
Proof. apply transport_step. remote_only_tac. Qed.

Lemma create_bucket_step conn name w r w' :
  Boto.create_bucket conn name w = (r, w') ->
  step (call_create_bucket name) (exn_of r) w w'.
Proof. apply transport_step. remote_only_tac. Qed.

Lemma get_key_step b key w r w' :
  Boto.get_key b key w = (r, w') ->
  step (call_get_key (bucket_name b) key) (exn_of r) w w'.
Proof. apply transport_step. remote_only_tac. Qed.

Lemma set_contents_from_file_step k handle w r w' :
  Boto.set_contents_from_file k handle w = (r, w') ->
  step (call_set_contents_from_file (bucket_name (key_bucket k)) (key_name k) handle) (exn_of r) w w'.
Proof. apply transport_step. remote_only_tac. Qed.

Lemma translated_not_boto e : is_BotoClientError_or_BotoServerError (translated e) = false.
Proof. destruct e; reflexivity. Qed.

Lemma handler_translated {A} e w :
  (if is_BotoClientError_or_BotoServerError e then raise (A:=A) CacheBackendError w
   else (Raise e, w)) = (Raise (translated e), w).
Proof. unfold translated, raise. by destruct (is_BotoClientError_or_BotoServerError e). Qed.

Lemma connection_port_pure port sec w :
  connection_port port sec w = ((connection_port port sec w).1, w).
Proof. unfold connection_port, ret. by destruct (Py.str_truthy port). Qed.

Lemma s3_connection_outcome cfg w r w' :
  s3_connection cfg w = (r, w') -> connection_outcome cfg w r w'.
Proof.
  unfold s3_connection. case_bool_decide as Hc.
  - unfold bind at 1, import_boto.
    destruct (boto_installed w) eqn:Hb.
    2:{ intros [= <- <-]. by constructor. }
    unfold bind, try_except.
    pose proof (eq_refl (endpoint_call cfg w)) as He. unfold endpoint_call at 1 in He.
    destruct (py_urlparse (pylib w) (s3_cache_url cfg)) as [ep|e] eqn:Hu.
    2:{ rewrite handler_translated. intros [= <- <-]. by apply connection_no_endpoint. }
    destruct (Py.partition ":" (netloc ep)) as [[host sep] port].
    rewrite connection_port_pure.
    destruct (connection_port port _ w).1 as [p|e].
    2:{ rewrite handler_translated. intros [= <- <-]. by apply connection_no_endpoint. }
    destruct (Boto.S3Connection _ _ _ _ w) as [[conn|e] w1] eqn:Hs;
      apply S3Connection_step in Hs; simpl in Hs.
    + unfold read_cached_connection. simpl. intros [= <- <-].
      by eapply connection_opened.
    + rewrite handler_translated. intros [= <- <-].
      by eapply connection_refused.
  - unfold read_cached_connection. destruct (cached_connection w) eqn:Hcc; [|done].
    intros [= <- <-]. by constructor.
Qed.

Lemma s3_connection_memoized cfg w conn :
  cached_connection w = Some conn -> s3_connection cfg w = (Ok conn, w).
Proof.
  intros H. unfold s3_connection, read_cached_connection.
  case_bool_decide; [congruence|]. by rewrite H.
Qed.

Lemma connection_outcome_ok cfg w conn w' :
  connection_outcome cfg w (Ok conn) w' -> cached_connection w' = Some conn.
Proof. by inversion 1; subst. Qed.

Lemma connection_outcome_raise cfg w e w' :
  connection_outcome cfg w (Raise e) w' ->
  is_BotoClientError_or_BotoServerError e = false /\ cached_connection w' = None.
Proof.
  inversion 1 as [ | | | c e0 w0 ? ? ? Hstep | ]; subst;
    rewrite ?translated_not_boto; split; try done.
  by rewrite (step_cached_connection _ _ _ _ Hstep).
Qed.

Lemma not_boto_not_S3ResponseError e :
  is_BotoClientError_or_BotoServerError e = false -> is_S3ResponseError e = false.
Proof. by destruct e. Qed.

Lemma S3ResponseError_404 e :
  is_S3ResponseError e = true -> status_of e = Some 404 -> e = S3ResponseError 404.
Proof. destruct e; simpl; congruence. Qed.

Lemma s3_bucket_outcome cfg w r w' :
  s3_bucket cfg w = (r, w') -> bucket_outcome cfg w r w'.
Proof.
  unfold s3_bucket. case_bool_decide as Hc.
  - unfold bind at 1, import_boto.
    destruct (boto_installed w) eqn:Hb.
    2:{ intros [= <- <-]. by constructor. }
    unfold bind at 1. unfold try_except at 1. unfold try_except at 1. unfold bind at 1.
    destruct (s3_connection cfg w) as [[conn|e] wc] eqn:Hconn;
      apply s3_connection_outcome in Hconn.
    2:{ destruct (connection_outcome_raise _ _ _ _ Hconn) as [Hnb _].
        rewrite (not_boto_not_S3ResponseError _ Hnb), Hnb.
        intros [= <- <-]. by apply bucket_no_connection. }
    pose proof (connection_outcome_ok _ _ _ _ Hconn) as Hcc.
    unfold bind at 1.
    destruct (Boto.get_bucket conn _ wc) as [[b|e] w1] eqn:Hg;
      apply get_bucket_step in Hg; simpl in Hg.
    + unfold read_cached_bucket. simpl. intros [= <- <-]. by eapply bucket_fetched.
    + destruct (is_S3ResponseError e) eqn:Hs3; simpl.
      2:{ rewrite handler_translated. intros [= <- <-].
          eapply bucket_refused; eauto. by rewrite Hs3. }
      case_bool_decide as Hst; simpl.
      2:{ rewrite handler_translated. intros [= <- <-].
          eapply bucket_refused; eauto. rewrite Hs3. simpl.
          by rewrite bool_decide_eq_false_2. }
      destruct (s3_cache_create_bucket cfg) eqn:Hcreate; simpl.
      2:{ rewrite handler_translated. intros [= <- <-].
          eapply bucket_refused; eauto. by rewrite Hcreate, andb_false_r. }
      apply S3ResponseError_404 in Hst; [subst e|done].
      assert (cached_connection w1 = Some conn) as Hcc1
        by (by rewrite (step_cached_connection _ _ _ _ Hg)).
      unfold bind at 1. rewrite (s3_connection_memoized _ _ _ Hcc1).
      unfold bind at 1.
      destruct (Boto.create_bucket conn _ w1) as [[[]|e] w2] eqn:Hcr;
        apply create_bucket_step in Hcr; simpl in Hcr.
      2:{ rewrite handler_translated. intros [= <- <-].
          by eapply bucket_create_failed. }
      assert (cached_connection w2 = Some conn) as Hcc2
        by (by rewrite (step_cached_connection _ _ _ _ Hcr)).
      unfold bind at 1. rewrite (s3_connection_memoized _ _ _ Hcc2).
      unfold bind at 1.
      destruct (Boto.get_bucket conn _ w2) as [[b|e] w3] eqn:Hg2;
        apply get_bucket_step in Hg2; simpl in Hg2.
      * unfold read_cached_bucket. simpl. intros [= <- <-].
        by eapply bucket_created_fetched.
      * rewrite handler_translated. intros [= <- <-].
        by eapply bucket_created_refused.
  - unfold read_cached_bucket. destruct (cached_bucket w) eqn:Hcb; [|done].
    intros [= <- <-]. by constructor.
Qed.

(** ** What the outcomes leave unchanged *)

Lemma connection_outcome_frame cfg w r w' :
  connection_outcome cfg w r w' ->
  dirs w' = dirs w /\ files w' = files w /\ boto_installed w' = boto_installed w /\
  pylib w' = pylib w /\ cached_bucket w' = cached_bucket w.
Proof.
  inversion 1 as [ | | | c e w0 ? ? ? Hs | c conn w0 ? ? ? Hs ]; subst; simpl;
    try destruct Hs; repeat split; congruence.
Qed.

Lemma bucket_outcome_frame cfg w r w' :
  bucket_outcome cfg w r w' ->
  dirs w' = dirs w /\ files w' = files w /\ boto_installed w' = boto_installed w /\
  pylib w' = pylib w.
Proof.
  inversion 1; subst; simpl;
    repeat match goal with
      | H : connection_outcome _ _ _ _ |- _ =>
          apply connection_outcome_frame in H; destruct H as (?&?&?&?&?)
      | H : step _ _ _ _ |- _ => destruct H
      end;
    repeat split; congruence.
Qed.

(** ** The calls an outcome logs *)

Lemma endpoint_call_is_connect cfg w c :
  endpoint_call cfg w = Ok c -> is_connect c = true.
Proof.
  unfold endpoint_call. intros H. repeat case_match; by simplify_eq.
Qed.

Lemma connection_outcome_events cfg w r w' :
  connection_outcome cfg w r w' ->
  exists evs, log w' = log w ++ evs /\ resolution_events r evs.
Proof.
  inversion 1 as [ | | | c e w0 ? ? Hc Hs | c conn w0 ? ? Hc Hs ]; subst; simpl.
  1-3: exists []; rewrite app_nil_r; repeat split; constructor.
  all: apply endpoint_call_is_connect in Hc; destruct Hs as [Hlog _ _ _ _ _ _ _].
  all: eexists [_]; split; [exact Hlog|]; split;
    [ constructor; [ by unfold is_resolution; simpl; rewrite Hc | constructor ] | simpl ].
  - by exists e.
  - done.
Qed.

Lemma resolution_events_snoc {A} (r : res A) evs ev :
  Forall (fun ev => is_resolution (ev_call ev) = true) evs ->
  is_resolution (ev_call ev) = true ->
  match r with
  | Ok _ => ev_raised ev = None
  | Raise e => exists e0, ev_raised ev = Some e0 /\ e = translated e0
  end ->
  resolution_events r (evs ++ [ev]).
Proof.
  intros Hall Hev Hr. split.
  - apply Forall_app. split; [done|]. by constructor.
  - rewrite last_snoc. by destruct r.
Qed.

Lemma bucket_outcome_events cfg w r w' :
  bucket_outcome cfg w r w' ->
  exists evs, log w' = log w ++ evs /\ resolution_events r evs.
Proof.
  inversion 1 as
    [ | | e wc ? ? Hc
      | conn wc b w1 ? ? Hc H1
      | conn wc e w1 ? ? Hc H1 ?
      | conn wc w1 e w2 ? ? Hc H1 ? H2
      | conn wc w1 w2 b w3 ? ? Hc H1 ? H2 H3
      | conn wc w1 w2 e w3 ? ? Hc H1 ? H2 H3 ]; subst; simpl.
  1-2: exists []; rewrite app_nil_r; repeat split; constructor.
  all: apply connection_outcome_events in Hc; destruct Hc as (evs & Hlog & Hall & Hlast).
  - exists evs. split; [done|]. split; [done|]. exact Hlast.
  - exists (evs ++ [mkEvent (call_get_bucket (s3_cache_bucket cfg)) None]).
    split; [by rewrite (step_log _ _ _ _ H1), Hlog, <- app_assoc|].
    by apply resolution_events_snoc.
  - exists (evs ++ [mkEvent (call_get_bucket (s3_cache_bucket cfg)) (Some e)]).
    split; [by rewrite (step_log _ _ _ _ H1), Hlog, <- app_assoc|].
    apply resolution_events_snoc; [done..|]. by exists e.
  - exists ((evs ++ [mkEvent (call_get_bucket (s3_cache_bucket cfg)) (Some (S3ResponseError 404))])
              ++ [mkEvent (call_create_bucket (s3_cache_bucket cfg)) (Some e)]).
    split; [by rewrite (step_log _ _ _ _ H2), (step_log _ _ _ _ H1), Hlog, <- !app_assoc|].
    apply resolution_events_snoc; [|done|by exists e].
    apply Forall_app. split; [done|]. by constructor.
  - exists (((evs ++ [mkEvent (call_get_bucket (s3_cache_bucket cfg)) (Some (S3ResponseError 404))])
               ++ [mkEvent (call_create_bucket (s3_cache_bucket cfg)) None])
              ++ [mkEvent (call_get_bucket (s3_cache_bucket cfg)) None]).
    split; [by rewrite (step_log _ _ _ _ H3), (step_log _ _ _ _ H2),
                 (step_log _ _ _ _ H1), Hlog, <- !app_assoc|].
    apply resolution_events_snoc; [|done..].
    repeat (apply Forall_app; split; [|by constructor]). done.
  - exists (((evs ++ [mkEvent (call_get_bucket (s3_cache_bucket cfg)) (Some (S3ResponseError 404))])
               ++ [mkEvent (call_create_bucket (s3_cache_bucket cfg)) None])
              ++ [mkEvent (call_get_bucket (s3_cache_bucket cfg)) (Some e)]).
    split; [by rewrite (step_log _ _ _ _ H3), (step_log _ _ _ _ H2),
                 (step_log _ _ _ _ H1), Hlog, <- !app_assoc|].
    apply resolution_events_snoc; [|done|by exists e].
    repeat (apply Forall_app; split; [|by constructor]). done.
Qed.

(** ** Key derivation *)

Lemma str_truthy_false s : Py.str_truthy s = false -> s = "".
Proof.
  unfold Py.str_truthy. intros H. apply negb_false_iff in H. by apply String.eqb_eq.
Qed.

Lemma append_assoc (a b c : string) : a +:+ b +:+ c = (a +:+ b) +:+ c.
Proof.
  induction a as [|x a IH]; [done|].
  change (String x (a +:+ b +:+ c) = String x ((a +:+ b) +:+ c)). by f_equal.
Qed.

Lemma append_empty_r (a : string) : a +:+ "" = a.
Proof.
  induction a as [|x a IH]; [done|].
  change (String x (a +:+ "") = String x a). by f_equal.
Qed.

(** C5: [get_cache_key] is a function of the configured prefix and the
    filename alone (no world is read or changed, and it is total): it joins the
    non-empty ones among the two with ["/"]; with an empty prefix the key of
    ["pkg-1.0.tar.gz"] is ["pkg-1.0.tar.gz"], with the prefix ["myprefix"] it is
    ["myprefix/pkg-1.0.tar.gz"]; the filename is the unchanged tail of the
    key. *)
Theorem get_cache_key_joins_prefix_and_filename :
  (forall cfg filename,
     get_cache_key cfg filename =
       match s3_cache_prefix cfg with
       | Some prefix =>
           if Py.str_truthy prefix
           then (if Py.str_truthy filename then prefix +:+ "/" +:+ filename else prefix)
           else filename
       | None => filename
       end) /\
  (forall bucket url readonly create cache,
     get_cache_key (mkConfig bucket url (Some "") readonly create cache) "pkg-1.0.tar.gz"
       = "pkg-1.0.tar.gz" /\
     get_cache_key (mkConfig bucket url None readonly create cache) "pkg-1.0.tar.gz"
       = "pkg-1.0.tar.gz" /\
     get_cache_key (mkConfig bucket url (Some "myprefix") readonly create cache) "pkg-1.0.tar.gz"
       = "myprefix/pkg-1.0.tar.gz") /\
  (forall cfg filename, exists head, get_cache_key cfg filename = head +:+ filename).
Proof.
  assert (forall cfg filename,
     get_cache_key cfg filename =
       match s3_cache_prefix cfg with
       | Some prefix =>
           if Py.str_truthy prefix
           then (if Py.str_truthy filename then prefix +:+ "/" +:+ filename else prefix)
           else filename
       | None => filename
       end) as Hkey.
  { intros cfg filename. unfold get_cache_key. simpl.
    destruct (s3_cache_prefix cfg) as [prefix|];
      [destruct (Py.str_truthy prefix)|];
      destruct (Py.str_truthy filename) eqn:Hf; simpl; try reflexivity;
      by rewrite (str_truthy_false _ Hf). }
  split; [exact Hkey|]. split; [by intros|].
  intros cfg filename. rewrite Hkey.
  destruct (s3_cache_prefix cfg) as [prefix|]; [|by exists ""].
  destruct (Py.str_truthy prefix); [|by exists ""].
  destruct (Py.str_truthy filename) eqn:Hf.
  - exists (prefix +:+ "/"). by rewrite append_assoc.
  - exists prefix. by rewrite (str_truthy_false _ Hf), append_empty_r.
Qed.

(** ** Prerequisites and the read-only switch *)

Lemma check_prerequisites_run cfg w :
  check_prerequisites cfg w =
    (if Py.truthy (s3_cache_bucket cfg) && boto_installed w
     then Ok tt else Raise CacheBackendDisabledError, w).
Proof.
  unfold check_prerequisites, try_except, import_boto, raise.
  destruct (Py.truthy (s3_cache_bucket cfg)); simpl; [|done].
  by destruct (boto_installed w).
Qed.

(** C7: with the read-only flag set, [put] returns without error and leaves
    the world as it was: no call reaches the client (the log is unchanged) and
    the prerequisites are not looked at, so an unset bucket or a missing boto
    makes no difference. *)
Theorem put_readonly_does_nothing cfg filename handle w :
  s3_cache_readonly cfg = true ->
  put cfg filename handle w = (Ok tt, w).
Proof. intros H. unfold put. by rewrite H. Qed.

Lemma put_readonly_does_nothing_witness :
  s3_cache_readonly Sample.config_readonly = true /\
  s3_cache_bucket Sample.config_readonly = None /\
  boto_installed Sample.world_without_boto = false /\
  put Sample.config_readonly "pkg-1.0.tar.gz" Sample.archive Sample.world_without_boto
    = (Ok tt, Sample.world_without_boto).
Proof.
  split; [reflexivity|]. split; [reflexivity|]. split; [reflexivity|].
  apply (put_readonly_does_nothing Sample.config_readonly "pkg-1.0.tar.gz" Sample.archive
           Sample.world_without_boto).
  reflexivity.
Defined.

(** C3, as stated, fails for [put]: with the bucket unset, boto missing and
    the read-only flag set, [put] returns instead of raising. *)
Lemma put_unset_bucket_readonly_returns :
  Py.truthy (s3_cache_bucket Sample.config_readonly) = false /\
  boto_installed Sample.world_without_boto = false /\
  put Sample.config_readonly "pkg-1.0.tar.gz" Sample.archive Sample.world_without_boto
    = (Ok tt, Sample.world_without_boto).
Proof. repeat split. Qed.

(** C3 (amended): when the bucket name is unset or boto cannot be imported,
    [get] raises [CacheBackendDisabledError], and so does [put] unless the
    read-only flag is set, in which case it returns; either way the world is
    left as it was, so no call reaches the client. *)
Theorem unmet_prerequisites_disable cfg filename handle w :
  Py.truthy (s3_cache_bucket cfg) = false \/ boto_installed w = false ->
  get cfg filename w = (Raise CacheBackendDisabledError, w) /\
  put cfg filename handle w =
    (if s3_cache_readonly cfg then Ok tt else Raise CacheBackendDisabledError, w).
Proof.
  intros H.
  assert (check_prerequisites cfg w = (Raise CacheBackendDisabledError, w)) as Hp.
  { rewrite check_prerequisites_run. destruct H as [-> | ->]; [done|].
    by rewrite andb_false_r. }
  split.
  - unfold get, bind. by rewrite Hp.
  - unfold put. destruct (s3_cache_readonly cfg); [done|].
    unfold bind. by rewrite Hp.
Qed.

Lemma unmet_prerequisites_disable_witness :
  get Sample.config_unset "pkg-1.0.tar.gz" Sample.world
    = (Raise CacheBackendDisabledError, Sample.world) /\
  put Sample.config_unset "pkg-1.0.tar.gz" Sample.archive Sample.world
    = (Raise CacheBackendDisabledError, Sample.world).
Proof.
  apply (unmet_prerequisites_disable Sample.config_unset "pkg-1.0.tar.gz" Sample.archive
           Sample.world).
  left. reflexivity.
Defined.

(** ** Downloads and directories *)

Lemma failure_at_tail n w w' :
  faults w' = tail (faults w) -> Boto.failure_at n w' = Boto.failure_at (S n) w.
Proof.
  unfold Boto.failure_at. intros ->. destruct (faults w); [by destruct n|done].
Qed.

Lemma get_key_run b key w :
  Boto.failure_at 0 w = None ->
  Boto.get_key b key w =
    (Ok (match Boto.lookup_object (bucket_name b) key w with
         | Some _ => Some (mkKey b key)
         | None => None
         end),
     add_event (call_get_key (bucket_name b) key) None (set_faults (tail (faults w)) w)).
Proof.
  intros Hf. unfold Boto.get_key, Boto.transport, Boto.next_fault. rewrite Hf.
  change (Boto.lookup_object (bucket_name b) key (set_faults (tail (faults w)) w))
    with (Boto.lookup_object (bucket_name b) key w).
  by destruct (Boto.lookup_object (bucket_name b) key w).
Qed.

Lemma get_contents_to_filename_fails k local_file w f :
  Boto.failure_at 0 w = Some f ->
  Boto.get_contents_to_filename k local_file w =
    (Raise (fail_exn f),
     add_event (call_get_contents_to_filename (bucket_name (key_bucket k)) (key_name k) local_file)
       (Some (fail_exn f))
       (set_files (Boto.leave (fail_residue f) local_file (files w))
                  (set_faults (tail (faults w)) w))).
Proof.
  intros Hf. unfold Boto.get_contents_to_filename, Boto.next_fault. by rewrite Hf.
Qed.

Lemma get_contents_to_filename_stores k local_file w data :
  Boto.failure_at 0 w = None ->
  Py.os_path_dirname local_file ∈ dirs w ->
  Boto.lookup_object (bucket_name (key_bucket k)) (key_name k) w = Some data ->
  Boto.get_contents_to_filename k local_file w =
    (Ok tt,
     add_event (call_get_contents_to_filename (bucket_name (key_bucket k)) (key_name k) local_file)
       None
       (set_files (<[local_file := data]> (files w)) (set_faults (tail (faults w)) w))).
Proof.
  intros Hf Hd Hl. unfold Boto.get_contents_to_filename, Boto.next_fault. rewrite Hf.
  simpl. rewrite bool_decide_eq_true_2 by done.
  change (Boto.lookup_object (bucket_name (key_bucket k)) (key_name k)
            (set_faults (tail (faults w)) w))
    with (Boto.lookup_object (bucket_name (key_bucket k)) (key_name k) w).
  by rewrite Hl.
Qed.

(** Apart from the destination file, a download is a step like the others. *)
Lemma get_contents_to_filename_step k local_file w r w' :
  Boto.get_contents_to_filename k local_file w = (r, w') ->
  step (call_get_contents_to_filename (bucket_name (key_bucket k)) (key_name k) local_file)
       (exn_of r) w (set_files (files w) w').
Proof.
  unfold Boto.get_contents_to_filename, Boto.next_fault.
  intros H. repeat case_match; simplify_eq/=; by split.
Qed.

Lemma with_parents_head n path :
  Py.str_truthy path = true -> path ∈ Fs.with_parents (S n) path.
Proof. intros H. simpl. rewrite H. apply list_elem_of_here. Qed.

Lemma makedirs_run path w :
  Py.str_truthy path = true ->
  Fs.makedirs path w =
    (Ok tt, set_dirs (list_to_set (Fs.with_parents (S (String.length path)) path) ∪ dirs w) w).
Proof. intros H. unfold Fs.makedirs. by rewrite H. Qed.

(** ** [get]: miss and hit *)

Lemma get_key_found b key w k w' :
  Boto.get_key b key w = (Ok (Some k), w') ->
  k = mkKey b key /\ is_Some (Boto.lookup_object (bucket_name b) key w).
Proof.
  unfold Boto.get_key, Boto.transport, Boto.next_fault. intros H.
  destruct (Boto.failure_at 0 w); [done|].
  change (Boto.lookup_object (bucket_name b) key (set_faults (tail (faults w)) w))
    with (Boto.lookup_object (bucket_name b) key w) in H.
  destruct (Boto.lookup_object (bucket_name b) key w); by simplify_eq.
Qed.

(** C2: when the prerequisites hold, the bucket resolves and the derived key
    is absent from it, [get] returns [None] and raises nothing; the lookup is
    the only call it adds. *)
Theorem get_miss_returns_None cfg filename w b w1 :
  Py.truthy (s3_cache_bucket cfg) = true ->
  boto_installed w = true ->
  s3_bucket cfg w = (Ok b, w1) ->
  Boto.failure_at 0 w1 = None ->
  Boto.lookup_object (bucket_name b) (get_cache_key cfg filename) w1 = None ->
  get cfg filename w =
    (Ok None,
     add_event (call_get_key (bucket_name b) (get_cache_key cfg filename)) None
               (set_faults (tail (faults w1)) w1)).
Proof.
  intros Hcfg Hboto Hb Hf Hl. unfold get, bind.
  rewrite check_prerequisites_run, Hcfg, Hboto. simpl.
  rewrite Hb, (get_key_run _ _ _ Hf), Hl. reflexivity.
Qed.

Lemma get_miss_returns_None_witness :
  Boto.lookup_object (Some "wheels") "myprefix/other.tar.gz" Sample.world_resolved = None /\
  get Sample.config "other.tar.gz" Sample.world =
    (Ok None,
     add_event (call_get_key (Some "wheels") "myprefix/other.tar.gz") None
               (set_faults [] Sample.world_resolved)).
Proof.
  split; [reflexivity|].
  apply (get_miss_returns_None Sample.config "other.tar.gz" Sample.world
           Sample.bucket Sample.world_resolved); (vm_compute; reflexivity).
Defined.

(** C10: when the bucket resolves and the derived key is absent from it,
    [get] leaves the local directories and files as they were, whatever the
    lookup answers or raises. *)
Theorem get_miss_leaves_local_files cfg filename w b w1 :
  s3_bucket cfg w = (Ok b, w1) ->
  Boto.lookup_object (bucket_name b) (get_cache_key cfg filename) w1 = None ->
  dirs (snd (get cfg filename w)) = dirs w /\
  files (snd (get cfg filename w)) = files w.
Proof.
  intros Hb Hl. unfold get, bind. rewrite check_prerequisites_run.
  destruct (Py.truthy (s3_cache_bucket cfg) && boto_installed w); [|done].
  rewrite Hb. apply s3_bucket_outcome, bucket_outcome_frame in Hb.
  destruct Hb as (Hd & Hfs & _).
  destruct (Boto.get_key b _ w1) as [[[k|]|e] w2] eqn:Hk.
  - apply get_key_found in Hk. destruct Hk as [_ [data Hdata]]. congruence.
  - apply get_key_step in Hk. destruct Hk. simpl. split; congruence.
  - apply get_key_step in Hk. destruct Hk. simpl. split; congruence.
Qed.

Lemma get_miss_leaves_local_files_witness :
  dirs (snd (get Sample.config "other.tar.gz" Sample.world)) = dirs Sample.world /\
  files (snd (get Sample.config "other.tar.gz" Sample.world)) = files Sample.world.
Proof.
  apply (get_miss_leaves_local_files Sample.config "other.tar.gz" Sample.world
           Sample.bucket Sample.world_resolved); (vm_compute; reflexivity).
Defined.

Lemma lookup_object_buckets name key w w' :
  buckets w' = buckets w ->
  Boto.lookup_object name key w' = Boto.lookup_object name key w.
Proof. unfold Boto.lookup_object, Boto.lookup_bucket. by intros ->. Qed.













(** C9: the code at the failing input. With the key present and the
    download failing with a server error, [get] raises that error itself,
    which is neither of the backend's two kinds. *)
Lemma failed_download_raises_S3ResponseError :
  fst (get Sample.config "pkg-1.0.tar.gz"
         (Sample.world_failing
            [None; None; None; Some (mkFailure (S3ResponseError 500) Untouched)]))
    = Raise (S3ResponseError 500) /\
  is_backend_exception (S3ResponseError 500) = false.
Proof. split; vm_compute; reflexivity. Qed.

(** ** Which exceptions cross [get] and [put] *)

Lemma log_not_extended (l evs : list event) x : l = l ++ evs ++ [x] -> False.
Proof.
  intros H. apply (f_equal length) in H. rewrite !length_app in H. simpl in H. lia.
Qed.

Lemma last_event_inv (l l' evs : list event) x y :
  l' ++ [y] = l ++ evs ++ [x] -> y = x.
Proof.
  rewrite (app_assoc l evs). intros H. by apply app_inj_tail in H as [_ ?].
Qed.

Lemma is_boto_translated e :
  is_BotoClientError_or_BotoServerError e = true -> translated e = CacheBackendError.
Proof. unfold translated. by intros ->. Qed.

Lemma bucket_raise_surfaces (l evs evs1 : list event) c e e' :
  resolution_events (Raise (A:=Bucket) e') evs1 ->
  l ++ evs1 = l ++ evs ++ [mkEvent c (Some e)] ->
  is_BotoClientError_or_BotoServerError e = true ->
  is_resolution c = true /\ e' = CacheBackendError.
Proof.
  intros [Hall Hlast] Heq Hboto. apply app_inv_head in Heq. subst evs1.
  rewrite last_snoc in Hlast. destruct Hlast as (e0 & [= <-] & ->).
  split; [|by apply is_boto_translated].
  apply Forall_app in Hall as [_ Hall]. by inversion Hall.
Qed.

(** C1: the code at the failing input. A server error raised by the key
    lookup crosses [get] as it is, and one raised by the upload crosses [put]
    as it is; neither is one of the backend's two kinds. *)
Lemma transfer_errors_cross_the_boundary :
  fst (get Sample.config "pkg-1.0.tar.gz"
         (Sample.world_failing [None; None; Some (mkFailure (S3ResponseError 403) Untouched)]))
    = Raise (S3ResponseError 403) /\
  fst (put Sample.config "pkg-1.0.tar.gz" Sample.archive
         (Sample.world_failing [None; None; Some (mkFailure (S3ResponseError 403) Untouched)]))
    = Raise (S3ResponseError 403) /\
  is_backend_exception (S3ResponseError 403) = false.
Proof. repeat split. Qed.

(** Where the translation takes place: when the last call an operation makes
    to the client raises a boto client or server error, [get] and [put] raise
    [CacheBackendError] if that call was establishing the connection or
    resolving the bucket (the bucket's creation included); an error of the key
    lookup, the download or the upload passes through the operation
    untranslated. *)
Lemma boto_errors_at_the_boundary cfg o w r w' evs c e :
  perform cfg o w = (r, w') ->
  log w' = log w ++ evs ++ [mkEvent c (Some e)] ->
  is_BotoClientError_or_BotoServerError e = true ->
  r = Raise (if is_resolution c then CacheBackendError else e).
Proof.
  destruct o as [filename|filename handle]; unfold perform.
  - unfold get, bind. rewrite check_prerequisites_run.
    destruct (Py.truthy (s3_cache_bucket cfg) && boto_installed w).
    2:{ intros [= <- <-] Hlog. by apply log_not_extended in Hlog. }
    destruct (s3_bucket cfg w) as [[b|e'] w1] eqn:Hb;
      apply s3_bucket_outcome, bucket_outcome_events in Hb as (evs1 & Hlog1 & Hev).
    2:{ intros [= <- <-] Hlog Hboto. rewrite Hlog1 in Hlog.
        destruct (bucket_raise_surfaces _ _ _ _ _ _ Hev Hlog Hboto) as [-> ->]. done. }
    destruct (Boto.get_key b _ w1) as [[[k|]|e'] w2] eqn:Hk;
      apply get_key_step in Hk; destruct Hk as [Hlog2 _ _ _ _ _ _ _]; simpl in Hlog2.
    + unfold Fs.makedirs.
      destruct (Py.str_truthy _).
      2:{ intros [= <- <-] Hlog. rewrite Hlog2, Hlog1 in Hlog.
          by apply last_event_inv in Hlog. }
      destruct (Boto.get_contents_to_filename _ _ _) as [[[]|e'] w4] eqn:Hd;
        apply get_contents_to_filename_step in Hd;
        destruct Hd as [Hlog4 _ _ _ _ _ _ _]; simpl in Hlog4;
        intros [= <- <-] Hlog; rewrite Hlog4, Hlog2, Hlog1 in Hlog;
        apply last_event_inv in Hlog; by simplify_eq.
    + intros [= <- <-] Hlog. rewrite Hlog2, Hlog1 in Hlog.
      by apply last_event_inv in Hlog.
    + intros [= <- <-] Hlog. rewrite Hlog2, Hlog1 in Hlog.
      apply last_event_inv in Hlog. by simplify_eq.
  - unfold put. destruct (s3_cache_readonly cfg).
    { intros [= <- <-] Hlog. by apply log_not_extended in Hlog. }
    unfold bind. rewrite check_prerequisites_run. unfold import_boto.
    destruct (Py.truthy (s3_cache_bucket cfg)); simpl;
      [|intros [= <- <-] Hlog; by apply log_not_extended in Hlog].
    destruct (boto_installed w);
      [|intros [= <- <-] Hlog; by apply log_not_extended in Hlog].
    destruct (s3_bucket cfg w) as [[b|e'] w1] eqn:Hb;
      apply s3_bucket_outcome, bucket_outcome_events in Hb as (evs1 & Hlog1 & Hev).
    2:{ intros [= <- <-] Hlog Hboto. rewrite Hlog1 in Hlog.
        destruct (bucket_raise_surfaces _ _ _ _ _ _ Hev Hlog Hboto) as [-> ->]. done. }
    destruct (Boto.set_contents_from_file _ _ w1) as [[[]|e'] w2] eqn:Hu;
      apply set_contents_from_file_step in Hu;
      destruct Hu as [Hlog2 _ _ _ _ _ _ _]; simpl in Hlog2;
      intros [= <- <-] Hlog; rewrite Hlog2, Hlog1 in Hlog;
      apply last_event_inv in Hlog; by simplify_eq.
Qed.

(** ** Resolving a missing bucket *)

(** C6: on a first resolution of the bucket, when the fetch raises an
    [S3ResponseError]: with status 404 and the auto-create flag set, the
    resolution goes on with one [create_bucket] call and, when that call
    returns, one more [get_bucket] call whose outcome is the resolution's (the
    handle memoized, or [CacheBackendError]); a failing [create_bucket] ends
    the resolution with [CacheBackendError]. With the flag unset or another
    status, no further call is made and the resolution raises
    [CacheBackendError]. *)
Theorem missing_bucket_is_created_once cfg w conn wc st w1 r w' :
  cached_bucket w = None ->
  boto_installed w = true ->
  s3_connection cfg w = (Ok conn, wc) ->
  Boto.get_bucket conn (s3_cache_bucket cfg) wc = (Raise (S3ResponseError st), w1) ->
  s3_bucket cfg w = (r, w') ->
  if bool_decide (st = 404) && s3_cache_create_bucket cfg
  then
    exists x,
      match x with
      | None =>
          exists y,
            log w' = log w1 ++ [mkEvent (call_create_bucket (s3_cache_bucket cfg)) None;
                                mkEvent (call_get_bucket (s3_cache_bucket cfg)) y] /\
            match y with
            | None => exists b, r = Ok b /\ cached_bucket w' = Some b
            | Some e => r = Raise (translated e) /\ cached_bucket w' = None
            end
      | Some e =>
          log w' = log w1 ++ [mkEvent (call_create_bucket (s3_cache_bucket cfg)) (Some e)] /\
          r = Raise (translated e) /\ cached_bucket w' = None
      end
  else r = Raise CacheBackendError /\ w' = w1.
Proof.
  intros Hc Hboto Hconn Hget. unfold s3_bucket.
  rewrite bool_decide_eq_true_2 by done.
  unfold bind at 1, import_boto. rewrite Hboto.
  unfold bind at 1. unfold try_except at 1. unfold try_except at 1. unfold bind at 1.
  rewrite Hconn. unfold bind at 1. rewrite Hget. simpl.
  pose proof (connection_outcome_ok _ _ _ _ (s3_connection_outcome _ _ _ _ Hconn)) as Hcc.
  pose proof (s3_connection_outcome _ _ _ _ Hconn) as Hco.
  apply connection_outcome_frame in Hco as (_ & _ & _ & _ & Hcb).
  apply get_bucket_step in Hget.
  assert (cached_connection w1 = Some conn) as Hcc1
    by (by rewrite (step_cached_connection _ _ _ _ Hget)).
  assert (cached_bucket w1 = None) as Hcb1
    by (by rewrite (step_cached_bucket _ _ _ _ Hget), Hcb).
  destruct (bool_decide (st = 404)) eqn:Hst.
  - apply bool_decide_eq_true_1 in Hst. subst st. simpl.
    destruct (s3_cache_create_bucket cfg); simpl.
    2:{ by intros [= <- <-]. }
    unfold bind at 1. rewrite (s3_connection_memoized _ _ _ Hcc1).
    unfold bind at 1.
    destruct (Boto.create_bucket conn _ w1) as [[[]|e] w2] eqn:Hcr;
      apply create_bucket_step in Hcr; simpl in Hcr.
    2:{ rewrite handler_translated. intros [= <- <-]. exists (Some e).
        split; [apply Hcr|]. split; [done|].
        by rewrite (step_cached_bucket _ _ _ _ Hcr). }
    assert (cached_connection w2 = Some conn) as Hcc2
      by (by rewrite (step_cached_connection _ _ _ _ Hcr)).
    unfold bind at 1. rewrite (s3_connection_memoized _ _ _ Hcc2).
    unfold bind at 1.
    destruct (Boto.get_bucket conn _ w2) as [[b|e] w3] eqn:Hg2;
      apply get_bucket_step in Hg2; simpl in Hg2.
    + unfold read_cached_bucket. simpl. intros [= <- <-]. exists None, None. simpl.
      rewrite (step_log _ _ _ _ Hg2), (step_log _ _ _ _ Hcr), <- app_assoc.
      split; [done|]. by exists b.
    + rewrite handler_translated. intros [= <- <-]. exists None, (Some e).
      rewrite (step_log _ _ _ _ Hg2), (step_log _ _ _ _ Hcr), <- app_assoc.
      split; [done|]. split; [done|].
      by rewrite (step_cached_bucket _ _ _ _ Hg2), (step_cached_bucket _ _ _ _ Hcr).
  - apply bool_decide_eq_false_1 in Hst. simpl.
    rewrite bool_decide_eq_false_2 by congruence. simpl.
    by intros [= <- <-].
Qed.

Lemma missing_bucket_is_created_once_witness :
  exists b,
    fst (s3_bucket Sample.config_create Sample.world_empty_store) = Ok b /\
    map ev_call (log (snd (s3_bucket Sample.config_create Sample.world_empty_store))) =
      [call_S3Connection "localhost" 9000 false OrdinaryCallingFormat;
       call_get_bucket (Some "wheels");
       call_create_bucket (Some "wheels");
       call_get_bucket (Some "wheels")].
Proof.
  pose proof (missing_bucket_is_created_once Sample.config_create Sample.world_empty_store
                (mkConnection "localhost" 9000 false OrdinaryCallingFormat)
                (snd (s3_connection Sample.config_create Sample.world_empty_store))
                404
                (snd (Boto.get_bucket (mkConnection "localhost" 9000 false OrdinaryCallingFormat)
                        (Some "wheels")
                        (snd (s3_connection Sample.config_create Sample.world_empty_store))))
                (fst (s3_bucket Sample.config_create Sample.world_empty_store))
                (snd (s3_bucket Sample.config_create Sample.world_empty_store))
                ltac:(vm_compute; reflexivity) ltac:(vm_compute; reflexivity)
                ltac:(vm_compute; reflexivity) ltac:(vm_compute; reflexivity)
                ltac:(vm_compute; reflexivity)) as H.
  vm_compute in H. destruct H as [[e|] H].
  - destruct H as (_ & H & _). discriminate H.
  - destruct H as ([e|] & _ & H).
    + destruct H as [H _]. discriminate H.
    + destruct H as (b & H & _). exists b. split; [vm_compute; exact H|].
      vm_compute. reflexivity.
Defined.

(** ** Memoization of the two handles *)

Lemma created_snoc kind l c x :
  created kind (l ++ [mkEvent c x]) =
    (created kind l + (if kind c && is_None x then 1 else 0))%nat.
Proof.
  unfold created. rewrite filter_app, length_app. f_equal.
  rewrite filter_cons, filter_nil. unfold returned. simpl.
  by destruct (kind c), x.
Qed.

Lemma attempts_snoc kind l c x :
  attempts kind (l ++ [mkEvent c x]) = (attempts kind l + (if kind c then 1 else 0))%nat.
Proof.
  unfold attempts. rewrite filter_app, length_app. f_equal.
  rewrite filter_cons, filter_nil. simpl.
  by destruct (kind c).
Qed.

Lemma step_created kind c x w w' :
  step c x w w' ->
  created kind (log w') = (created kind (log w) + (if kind c && is_None x then 1 else 0))%nat.
Proof. intros H. rewrite (step_log _ _ _ _ H). apply created_snoc. Qed.

Lemma step_attempts kind c x w w' :
  step c x w w' ->
  attempts kind (log w') = (attempts kind (log w) + (if kind c then 1 else 0))%nat.
Proof. intros H. rewrite (step_log _ _ _ _ H). apply attempts_snoc. Qed.

Lemma is_connect_not_get_bucket c : is_connect c = true -> is_get_bucket c = false.
Proof. by destruct c. Qed.

Ltac step_facts :=
  repeat match goal with
    | H : endpoint_call _ _ = Ok ?c |- _ =>
        apply endpoint_call_is_connect in H;
        pose proof (is_connect_not_get_bucket _ H)
    | H : step ?c ?x ?w ?w' |- _ =>
        pose proof (step_created is_connect _ _ _ _ H);
        pose proof (step_created is_get_bucket _ _ _ _ H);
        pose proof (step_attempts is_connect _ _ _ _ H);
        pose proof (step_attempts is_get_bucket _ _ _ _ H);
        pose proof (step_cached_connection _ _ _ _ H);
        pose proof (step_cached_bucket _ _ _ _ H);
        clear H
    end.

Ltac rewrite_facts :=
  repeat match goal with
    | H : ?a = true |- _ => rewrite H in *; clear H
    | H : ?a = false |- _ => rewrite H in *; clear H
    | H : cached_connection ?w' = _ |- _ => rewrite H in *; clear H
    | H : cached_bucket ?w' = _ |- _ => rewrite H in *; clear H
    | H : created _ (log ?w') = _ |- _ => rewrite H in *; clear H
    | H : attempts _ (log ?w') = _ |- _ => rewrite H in *; clear H
    end.

Ltac count_solver :=
  rewrite_facts; simpl in *; rewrite ?Nat.add_0_r, ?Nat.add_1_r in *;
  intuition (try congruence; try lia).

Lemma connection_outcome_memoized cfg w r w' :
  connection_outcome cfg w r w' -> memoized_once w -> memoized_once w'.
Proof.
  unfold memoized_once.
  inversion 1; subst; simpl; try done; step_facts; simpl in *.
  all: intros (Hc1 & Hc2 & Hb1 & Hb2); count_solver.
Qed.

Lemma bucket_outcome_memoized cfg w r w' :
  bucket_outcome cfg w r w' -> memoized_once w -> memoized_once w'.
Proof.
  intros H Hm.
  inversion H; subst; try done.
  all: match goal with
       | Hc : connection_outcome _ _ _ _ |- _ =>
           pose proof (connection_outcome_memoized _ _ _ _ Hc Hm) as Hmc;
           apply connection_outcome_frame in Hc as (_ & _ & _ & _ & Hcb)
       end.
  all: try done.
  all: unfold memoized_once in *; simpl; step_facts; simpl in *.
  all: destruct Hmc as (Hc1 & Hc2 & Hb1 & Hb2).
  all: match goal with Hx : cached_bucket _ = None |- _ => rewrite Hx in Hcb end.
  all: count_solver.
Qed.

Lemma step_other_memoized c x w w' :
  step c x w w' -> is_connect c = false -> is_get_bucket c = false ->
  memoized_once w -> memoized_once w'.
Proof.
  unfold memoized_once. intros H H1 H2 (Hc1 & Hc2 & Hb1 & Hb2).
  step_facts. count_solver.
Qed.

Lemma perform_memoized cfg o w :
  memoized_once w -> memoized_once (run_operation cfg o w).
Proof.
  intros Hm. destruct o as [filename|filename handle]; unfold run_operation, perform.
  - unfold get, bind. rewrite check_prerequisites_run.
    destruct (Py.truthy (s3_cache_bucket cfg) && boto_installed w); [|done].
    destruct (s3_bucket cfg w) as [[b|e] w1] eqn:Hb;
      apply s3_bucket_outcome in Hb; apply (bucket_outcome_memoized _ _ _ _ Hb) in Hm;
      [|done].
    destruct (Boto.get_key b _ w1) as [[[k|]|e] w2] eqn:Hk;
      apply get_key_step in Hk;
      apply (step_other_memoized _ _ _ _ Hk eq_refl eq_refl) in Hm; [|done..].
    unfold Fs.makedirs. destruct (Py.str_truthy _); [|done].
    destruct (Boto.get_contents_to_filename _ _ _) as [[[]|e] w4] eqn:Hd;
      apply get_contents_to_filename_step in Hd;
      exact (step_other_memoized _ _ _ _ Hd eq_refl eq_refl Hm).
  - unfold put. destruct (s3_cache_readonly cfg); [done|].
    unfold bind. rewrite check_prerequisites_run. unfold import_boto.
    destruct (Py.truthy (s3_cache_bucket cfg)); simpl; [|done].
    destruct (boto_installed w); [|done].
    destruct (s3_bucket cfg w) as [[b|e] w1] eqn:Hb;
      apply s3_bucket_outcome in Hb; apply (bucket_outcome_memoized _ _ _ _ Hb) in Hm;
      [|done].
    destruct (Boto.set_contents_from_file _ _ w1) as [[[]|e] w2] eqn:Hu;
      apply set_contents_from_file_step in Hu;
      exact (step_other_memoized _ _ _ _ Hu eq_refl eq_refl Hm).
Qed.

Lemma run_operations_memoized cfg ops w :
  memoized_once w -> memoized_once (run_operations cfg ops w).
Proof.
  unfold run_operations. revert w.
  induction ops as [|o ops IH]; intros w Hm; simpl; [done|].
  apply IH. by apply perform_memoized.
Qed.

Lemma new_instance_memoized w : new_instance w -> memoized_once w.
Proof.
  intros (Hc & Hb & Hl). unfold memoized_once. rewrite Hc, Hb, Hl.
  unfold created. simpl. repeat split; lia.
Qed.

Lemma bucket_outcome_retries cfg w r w' :
  bucket_outcome cfg w r w' ->
  cached_bucket w = None -> boto_installed w = true -> endpoint_readable cfg w ->
  retried w w'.
Proof.
  unfold retried.
  intros H Hcb Hboto Hep. inversion H; subst; try congruence.
  all: match goal with
       | Hc : connection_outcome _ _ _ _ |- _ => inversion Hc; subst; try congruence
       end.
  all: try (destruct Hep as [Hep | [c' Hep]]; congruence).
  all: try (rewrite bool_decide_eq_false_2 by congruence).
  all: try (rewrite bool_decide_eq_true_2 by congruence).
  all: simpl; step_facts; simpl in *; rewrite_facts; simpl in *; lia.
Qed.

Lemma retried_step c x w w1 w1' w2 :
  retried w w1 -> log w1' = log w1 -> step c x w1' w2 -> retried w w2.
Proof.
  unfold retried. intros H Hl Hs. step_facts. rewrite Hl in *.
  destruct (bool_decide (cached_connection w = None)); rewrite_facts; lia.
Qed.

Lemma perform_retries cfg o w :
  cached_bucket w = None -> reaches_bucket cfg o w -> endpoint_readable cfg w ->
  retried w (run_operation cfg o w).
Proof.
  intros Hcb (Hcfg & Hboto & Ho) Hep.
  destruct o as [filename|filename handle]; unfold run_operation, perform.
  - unfold get, bind. rewrite check_prerequisites_run, Hcfg, Hboto. simpl.
    destruct (s3_bucket cfg w) as [[b|e] w1] eqn:Hb;
      apply s3_bucket_outcome in Hb;
      pose proof (bucket_outcome_retries _ _ _ _ Hb Hcb Hboto Hep) as Hr; [|done].
    destruct (Boto.get_key b _ w1) as [[[k|]|e] w2] eqn:Hk;
      apply get_key_step in Hk;
      pose proof (retried_step _ _ _ _ _ _ Hr eq_refl Hk) as Hr2; [|done..].
    unfold Fs.makedirs. destruct (Py.str_truthy _); [|done].
    destruct (Boto.get_contents_to_filename _ _ _) as [[[]|e] w4] eqn:Hd;
      apply get_contents_to_filename_step in Hd;
      exact ((fun Hl => retried_step _ _ _ _ _ _ Hr2 Hl Hd) eq_refl).
  - unfold put. rewrite Ho.
    unfold bind. rewrite check_prerequisites_run, Hcfg, Hboto. unfold import_boto.
    simpl. rewrite Hboto.
    destruct (s3_bucket cfg w) as [[b|e] w1] eqn:Hb;
      apply s3_bucket_outcome in Hb;
      pose proof (bucket_outcome_retries _ _ _ _ Hb Hcb Hboto Hep) as Hr; [|done].
    destruct (Boto.set_contents_from_file _ _ w1) as [[[]|e] w2] eqn:Hu;
      apply set_contents_from_file_step in Hu;
      exact (retried_step _ _ _ _ _ _ Hr eq_refl Hu).
Qed.

(** C4: across any sequence of [get] and [put] operations on a new instance,
    at most one call creating the connection and at most one call fetching the
    bucket ever return, and a handle is memoized exactly when such a call has
    returned, so a failed attempt memoizes nothing; while no bucket is
    memoized, the next operation that gets past the prerequisites attempts the
    resolution again: it opens a connection if none is memoized, and fetches
    the bucket otherwise. *)
Theorem handles_are_created_at_most_once cfg ops w :
  new_instance w ->
  memoized_once (run_operations cfg ops w) /\
  forall o,
    cached_bucket (run_operations cfg ops w) = None ->
    reaches_bucket cfg o (run_operations cfg ops w) ->
    endpoint_readable cfg (run_operations cfg ops w) ->
    retried (run_operations cfg ops w) (run_operation cfg o (run_operations cfg ops w)).
Proof.
  intros Hnew. split.
  - by apply run_operations_memoized, new_instance_memoized.
  - intros o. apply perform_retries.
Qed.

Lemma handles_are_created_at_most_once_witness :
  memoized_once
    (run_operations Sample.config
       [op_get "pkg-1.0.tar.gz"; op_put "other.tar.gz" Sample.archive; op_get "other.tar.gz"]
       Sample.world) /\
  forall o,
    cached_bucket
      (run_operations Sample.config
         [op_get "pkg-1.0.tar.gz"; op_put "other.tar.gz" Sample.archive; op_get "other.tar.gz"]
         Sample.world) = None ->
    reaches_bucket Sample.config o
      (run_operations Sample.config
         [op_get "pkg-1.0.tar.gz"; op_put "other.tar.gz" Sample.archive; op_get "other.tar.gz"]
         Sample.world) ->
    endpoint_readable Sample.config
      (run_operations Sample.config
         [op_get "pkg-1.0.tar.gz"; op_put "other.tar.gz" Sample.archive; op_get "other.tar.gz"]
         Sample.world) ->
    retried
      (run_operations Sample.config
         [op_get "pkg-1.0.tar.gz"; op_put "other.tar.gz" Sample.archive; op_get "other.tar.gz"]
         Sample.world)
      (run_operation Sample.config o
         (run_operations Sample.config
            [op_get "pkg-1.0.tar.gz"; op_put "other.tar.gz" Sample.archive; op_get "other.tar.gz"]
            Sample.world)).
Proof.
  apply (handles_are_created_at_most_once Sample.config
           [op_get "pkg-1.0.tar.gz"; op_put "other.tar.gz" Sample.archive; op_get "other.tar.gz"]
           Sample.world).
  repeat split.
Defined.

(** * Further properties of the backend *)

Lemma append_cons x (a b : string) : String x a +:+ b = String x (a +:+ b).
Proof. reflexivity. Qed.

Lemma append_inj_r (p a b : string) : p +:+ a = p +:+ b -> a = b.
Proof.
  induction p as [|x p IH]; [done|]. rewrite !append_cons. intros [= H]. by apply IH.
Qed.

Lemma append_length (a b : string) :
  String.length (a +:+ b) = (String.length a + String.length b)%nat.
Proof.
  induction a as [|x a IH]; [done|]. rewrite append_cons. simpl. by rewrite IH.
Qed.

Lemma str_truthy_true s : Py.str_truthy s = true -> s <> "".
Proof. unfold Py.str_truthy. intros H ->. done. Qed.

Lemma get_cache_key_cases cfg filename :
  get_cache_key cfg filename =
    match s3_cache_prefix cfg with
    | Some prefix =>
        if Py.str_truthy prefix
        then (if Py.str_truthy filename then prefix +:+ "/" +:+ filename else prefix)
        else filename
    | None => filename
    end.
Proof.
  unfold get_cache_key. simpl.
  destruct (s3_cache_prefix cfg) as [prefix|];
    [destruct (Py.str_truthy prefix)|];
    destruct (Py.str_truthy filename) eqn:Hf; simpl; try reflexivity;
    by rewrite (str_truthy_false _ Hf).
Qed.

Lemma get_cache_key_injective cfg filename1 filename2 :
  get_cache_key cfg filename1 = get_cache_key cfg filename2 ->
  filename1 = filename2.
Proof.
  rewrite !get_cache_key_cases.
  destruct (s3_cache_prefix cfg) as [prefix|]; [|done].
  destruct (Py.str_truthy prefix); [|done].
  destruct (Py.str_truthy filename1) eqn:H1, (Py.str_truthy filename2) eqn:H2.
  - intros H. apply append_inj_r in H. by apply (append_inj_r "/") in H.
  - intros H. apply (f_equal String.length) in H. rewrite !append_length in H.
    simpl in H. lia.
  - intros H. apply (f_equal String.length) in H. rewrite !append_length in H.
    simpl in H. lia.
  - by rewrite (str_truthy_false _ H1), (str_truthy_false _ H2).
Qed.

(** X1: under one configuration, two different filenames never get the same
    cache key, the empty filename included. *)
Theorem distinct_filenames_get_distinct_keys cfg filename1 filename2 :
  filename1 <> filename2 ->
  get_cache_key cfg filename1 <> get_cache_key cfg filename2.
Proof. intros Hne Heq. by apply Hne, (get_cache_key_injective cfg). Qed.

Lemma bucket_outcome_ok cfg w b w' :
  bucket_outcome cfg w (Ok b) w' -> cached_bucket w' = Some b.
Proof. by inversion 1; subst. Qed.

Lemma s3_bucket_memoized cfg w b :
  cached_bucket w = Some b -> s3_bucket cfg w = (Ok b, w).
Proof.
  intros H. unfold s3_bucket, read_cached_bucket.
  case_bool_decide; [congruence|]. by rewrite H.
Qed.

Lemma set_contents_from_file_run k handle w n objs :
  Boto.failure_at 0 w = None ->
  bucket_name (key_bucket k) = Some n ->
  buckets w !! n = Some objs ->
  Boto.set_contents_from_file k handle w =
    (Ok tt,
     add_event (call_set_contents_from_file (Some n) (key_name k) handle) None
       (set_buckets (<[n := <[key_name k := handle]> objs]> (buckets w))
                    (set_faults (tail (faults w)) w))).
Proof.
  intros Hf Hn Ho.
  unfold Boto.set_contents_from_file, Boto.transport, Boto.next_fault.
  rewrite Hf, Hn. simpl. by rewrite Ho.
Qed.

Lemma put_run cfg filename handle w b w1 n objs :
  s3_cache_readonly cfg = false ->
  Py.truthy (s3_cache_bucket cfg) = true ->
  boto_installed w = true ->
  s3_bucket cfg w = (Ok b, w1) ->
  Boto.failure_at 0 w1 = None ->
  bucket_name b = Some n ->
  buckets w1 !! n = Some objs ->
  put cfg filename handle w =
    (Ok tt,
     add_event (call_set_contents_from_file (Some n) (get_cache_key cfg filename) handle) None
       (set_buckets (<[n := <[get_cache_key cfg filename := handle]> objs]> (buckets w1))
                    (set_faults (tail (faults w1)) w1))).
Proof.
  intros Hro Hcfg Hboto Hb Hf Hn Ho. unfold put. rewrite Hro. unfold bind.
  rewrite check_prerequisites_run, Hcfg, Hboto. unfold import_boto. simpl.
  rewrite Hboto, Hb. by apply set_contents_from_file_run.
Qed.

(** X2: a [put] that is not read-only and meets no failure stores the
    content of the handle under the derived key of the resolved bucket; the
    other keys of that bucket and the other buckets are left as they were. *)
Theorem put_stores_the_archive cfg filename handle w b w1 n objs :
  s3_cache_readonly cfg = false ->
  Py.truthy (s3_cache_bucket cfg) = true ->
  boto_installed w = true ->
  s3_bucket cfg w = (Ok b, w1) ->
  Boto.failure_at 0 w1 = None ->
  bucket_name b = Some n ->
  buckets w1 !! n = Some objs ->
  exists w',
    put cfg filename handle w = (Ok tt, w') /\
    Boto.lookup_object (Some n) (get_cache_key cfg filename) w' = Some handle /\
    (forall key, key <> get_cache_key cfg filename ->
       Boto.lookup_object (Some n) key w' = objs !! key) /\
    (forall m, m <> n -> buckets w' !! m = buckets w1 !! m).
Proof.
  intros Hro Hcfg Hboto Hb Hf Hn Ho.
  eexists. split; [by eapply put_run|].
  unfold Boto.lookup_object, Boto.lookup_bucket. simpl.
  rewrite lookup_insert_eq. split; [apply lookup_insert_eq|]. split.
  - intros key Hk. by rewrite lookup_insert_ne.
  - intros m Hm. by rewrite lookup_insert_ne.
Qed.

(** X3: [put] never touches the local file system, whatever it returns or
    raises. *)
Theorem put_leaves_local_files cfg filename handle w :
  dirs (snd (put cfg filename handle w)) = dirs w /\
  files (snd (put cfg filename handle w)) = files w.
Proof.
  unfold put. destruct (s3_cache_readonly cfg); [done|].
  unfold bind. rewrite check_prerequisites_run. unfold import_boto.
  destruct (Py.truthy (s3_cache_bucket cfg)); simpl; [|done].
  destruct (boto_installed w); [|done].
  destruct (s3_bucket cfg w) as [[b|e] w1] eqn:Hb;
    apply s3_bucket_outcome, bucket_outcome_frame in Hb as (Hd & Hfs & _); [|done].
  destruct (Boto.set_contents_from_file _ _ w1) as [r w2] eqn:Hu.
  apply set_contents_from_file_step in Hu. destruct Hu. simpl. split; congruence.
Qed.

Lemma get_hit_run cfg filename w b w1 data :
  Py.truthy (s3_cache_bucket cfg) = true ->
  boto_installed w = true ->
  s3_bucket cfg w = (Ok b, w1) ->
  Boto.failure_at 0 w1 = None ->
  Boto.failure_at 1 w1 = None ->
  Boto.lookup_object (bucket_name b) (get_cache_key cfg filename) w1 = Some data ->
  Py.str_truthy (Py.os_path_dirname (Py.os_path_join (binary_cache cfg) filename)) = true ->
  exists w',
    get cfg filename w = (Ok (Some (Py.os_path_join (binary_cache cfg) filename)), w') /\
    files w' !! Py.os_path_join (binary_cache cfg) filename = Some data /\
    buckets w' = buckets w1.
Proof.
  intros Hcfg Hboto Hb Hf0 Hf1 Hl Hdir. unfold get, bind.
  rewrite check_prerequisites_run, Hcfg, Hboto. simpl.
  rewrite Hb, (get_key_run _ _ _ Hf0), Hl, (makedirs_run _ _ Hdir).
  erewrite get_contents_to_filename_stores; [ | | | exact Hl].
  - eexists. split; [reflexivity|]. simpl. split; [apply lookup_insert_eq|done].
  - rewrite <- Hf1. by apply failure_at_tail.
  - simpl. apply elem_of_union_l, elem_of_list_to_set, with_parents_head, Hdir.
Qed.

(** X4: a [put] followed by a [get] of the same filename on the same
    instance, with no failure on the way, downloads exactly the bytes that were
    put, whatever they are (none included). *)
Theorem put_then_get_round_trip cfg filename handle w b w1 n objs :
  s3_cache_readonly cfg = false ->
  Py.truthy (s3_cache_bucket cfg) = true ->
  boto_installed w = true ->
  s3_bucket cfg w = (Ok b, w1) ->
  bucket_name b = Some n ->
  buckets w1 !! n = Some objs ->
  Boto.failure_at 0 w1 = None ->
  Boto.failure_at 1 w1 = None ->
  Boto.failure_at 2 w1 = None ->
  Py.str_truthy (Py.os_path_dirname (Py.os_path_join (binary_cache cfg) filename)) = true ->
  exists w' w'',
    put cfg filename handle w = (Ok tt, w') /\
    get cfg filename w' = (Ok (Some (Py.os_path_join (binary_cache cfg) filename)), w'') /\
    files w'' !! Py.os_path_join (binary_cache cfg) filename = Some handle.
Proof.
  intros Hro Hcfg Hboto Hb Hn Ho Hf0 Hf1 Hf2 Hdir.
  pose proof (put_run _ filename handle _ _ _ _ _ Hro Hcfg Hboto Hb Hf0 Hn Ho) as Hput.
  pose proof (bucket_outcome_ok _ _ _ _ (s3_bucket_outcome _ _ _ _ Hb)) as Hcb.
  pose proof (s3_bucket_outcome _ _ _ _ Hb) as Hfr.
  apply bucket_outcome_frame in Hfr as (_ & _ & Hbi & _).
  eexists. edestruct (get_hit_run cfg filename) as (w'' & Hget & Hfile & _);
    [exact Hcfg| | apply s3_bucket_memoized | | | | exact Hdir | ].
  6:{ exists w''. split; [exact Hput|]. split; [exact Hget|exact Hfile]. }
  - simpl. congruence.
  - exact Hcb.
  - rewrite <- Hf1. by apply failure_at_tail.
  - rewrite <- Hf2. by apply failure_at_tail.
  - unfold Boto.lookup_object, Boto.lookup_bucket. simpl. rewrite Hn.
    rewrite lookup_insert_eq. apply lookup_insert_eq.
Qed.

(** X5: two [put]s of the same filename leave the store as the second
    alone would: the key holds the second content, so a repeated [put] of the
    same content changes nothing. *)
Theorem put_twice_keeps_the_last cfg filename handle1 handle2 w b w1 n objs :
  s3_cache_readonly cfg = false ->
  Py.truthy (s3_cache_bucket cfg) = true ->
  boto_installed w = true ->
  s3_bucket cfg w = (Ok b, w1) ->
  bucket_name b = Some n ->
  buckets w1 !! n = Some objs ->
  Boto.failure_at 0 w1 = None ->
  Boto.failure_at 1 w1 = None ->
  exists w' w'',
    put cfg filename handle1 w = (Ok tt, w') /\
    put cfg filename handle2 w' = (Ok tt, w'') /\
    Boto.lookup_object (Some n) (get_cache_key cfg filename) w'' = Some handle2 /\
    buckets w'' = <[n := <[get_cache_key cfg filename := handle2]> objs]> (buckets w1).
Proof.
  intros Hro Hcfg Hboto Hb Hn Ho Hf0 Hf1.
  pose proof (put_run _ filename handle1 _ _ _ _ _ Hro Hcfg Hboto Hb Hf0 Hn Ho) as Hput.
  pose proof (bucket_outcome_ok _ _ _ _ (s3_bucket_outcome _ _ _ _ Hb)) as Hcb.
  pose proof (s3_bucket_outcome _ _ _ _ Hb) as Hfr.
  apply bucket_outcome_frame in Hfr as (_ & _ & Hbi & _).
  eexists. eexists. split; [exact Hput|]. split.
  - eapply put_run; [exact Hro|exact Hcfg| | apply s3_bucket_memoized | | exact Hn | ].
    + simpl. congruence.
    + exact Hcb.
    + rewrite <- Hf1. by apply failure_at_tail.
    + simpl. apply lookup_insert_eq.
  - unfold Boto.lookup_object, Boto.lookup_bucket. simpl.
    rewrite !insert_insert_eq, !lookup_insert_eq. done.
Qed.

Lemma get_key_buckets b key w r w' :
  Boto.get_key b key w = (r, w') -> buckets w' = buckets w.
Proof.
  unfold Boto.get_key, Boto.transport, Boto.next_fault. intros H.
  repeat case_match; by simplify_eq/=.
Qed.

Lemma get_contents_to_filename_returns k local_file w w' :
  Boto.get_contents_to_filename k local_file w = (Ok tt, w') ->
  exists data,
    Boto.lookup_object (bucket_name (key_bucket k)) (key_name k) w = Some data /\
    files w' = <[local_file := data]> (files w) /\
    buckets w' = buckets w /\
    Py.os_path_dirname local_file ∈ dirs w'.
Proof.
  unfold Boto.get_contents_to_filename, Boto.next_fault. intros H.
  destruct (Boto.failure_at 0 w); [done|].
  case_bool_decide as Hd; [|done].
  change (Boto.lookup_object (bucket_name (key_bucket k)) (key_name k)
            (set_faults (tail (faults w)) w))
    with (Boto.lookup_object (bucket_name (key_bucket k)) (key_name k) w) in H.
  destruct (Boto.lookup_object _ _ w) as [data|]; [|done].
  simplify_eq/=. by exists data.
Qed.

(** X6: whenever [get] returns a path, it is
    [os.path.join(binary_cache, filename)], the bucket is memoized, the file at
    that path holds the bytes stored under the derived key, and its directory
    exists. *)
Theorem get_returns_only_downloaded_files cfg filename w path w' :
  get cfg filename w = (Ok (Some path), w') ->
  path = Py.os_path_join (binary_cache cfg) filename /\
  exists b data,
    cached_bucket w' = Some b /\
    Boto.lookup_object (bucket_name b) (get_cache_key cfg filename) w' = Some data /\
    files w' !! path = Some data /\
    Py.os_path_dirname path ∈ dirs w'.
Proof.
  unfold get, bind. rewrite check_prerequisites_run.
  destruct (Py.truthy (s3_cache_bucket cfg) && boto_installed w); [|done].
  destruct (s3_bucket cfg w) as [[b|e] w1] eqn:Hb; [|done].
  apply s3_bucket_outcome, bucket_outcome_ok in Hb.
  destruct (Boto.get_key b _ w1) as [[[k|]|e] w2] eqn:Hk; [|done..].
  pose proof (get_key_buckets _ _ _ _ _ Hk) as Hbk.
  pose proof (get_key_found _ _ _ _ _ Hk) as [-> _].
  apply get_key_step in Hk.
  unfold Fs.makedirs. destruct (Py.str_truthy _); [|done].
  destruct (Boto.get_contents_to_filename _ _ _) as [[[]|e] w4] eqn:Hd; [|done].
  intros [= <- <-]. split; [done|].
  pose proof (step_cached_bucket _ _ _ _ (get_contents_to_filename_step _ _ _ _ _ Hd)) as Hcb4.
  change (cached_bucket w4 = cached_bucket w2) in Hcb4.
  apply get_contents_to_filename_returns in Hd as (data & Hl & Hfs & Hbk4 & Hdir).
  change (buckets w4 = buckets w2) in Hbk4.
  exists b, data.
  split; [by rewrite Hcb4, (step_cached_bucket _ _ _ _ Hk)|].
  split; [by rewrite (lookup_object_buckets _ _ _ _ Hbk4)|].
  split; [rewrite Hfs; apply lookup_insert_eq|done].
Qed.

Lemma step_attempts_other c x w w' :
  step c x w w' -> is_resolution c = false ->
  attempts is_resolution (log w') = attempts is_resolution (log w).
Proof.
  intros H Hc. rewrite (step_attempts _ _ _ _ _ H), Hc. lia.
Qed.

(** X7: once a bucket is memoized, no operation establishes a connection,
    fetches or creates a bucket again, and both memoized handles stay as they
    are. *)
Theorem memoized_bucket_is_reused cfg o w b :
  cached_bucket w = Some b ->
  cached_bucket (run_operation cfg o w) = Some b /\
  cached_connection (run_operation cfg o w) = cached_connection w /\
  attempts is_resolution (log (run_operation cfg o w)) = attempts is_resolution (log w).
Proof.
  intros Hcb. destruct o as [filename|filename handle]; unfold run_operation, perform.
  - unfold get, bind, ret. rewrite check_prerequisites_run.
    destruct (Py.truthy (s3_cache_bucket cfg) && boto_installed w); [|done].
    rewrite (s3_bucket_memoized _ _ _ Hcb).
    destruct (Boto.get_key b _ w) as [[[k|]|e] w2] eqn:Hk;
      apply get_key_step in Hk;
      pose proof (step_attempts_other _ _ _ _ Hk eq_refl) as Ha;
      destruct Hk as [_ _ Hc2 Hb2 _ _ _ _]; simpl;
      [|repeat split; congruence|repeat split; congruence].
    unfold Fs.makedirs. destruct (Py.str_truthy _); [|simpl; repeat split; congruence].
    destruct (Boto.get_contents_to_filename _ _ _) as [r w4] eqn:Hd.
    apply get_contents_to_filename_step in Hd.
    pose proof (step_attempts_other _ _ _ _ Hd eq_refl) as Ha4.
    destruct Hd as [_ _ Hc4 Hb4 _ _ _ _]. simpl in *.
    destruct r as [[]|e]; simpl; repeat split; congruence.
  - unfold put. destruct (s3_cache_readonly cfg); [done|].
    unfold bind, ret. rewrite check_prerequisites_run. unfold import_boto.
    destruct (Py.truthy (s3_cache_bucket cfg)); simpl; [|done].
    destruct (boto_installed w); [|done].
    rewrite (s3_bucket_memoized _ _ _ Hcb).
    destruct (Boto.set_contents_from_file _ _ w) as [r w2] eqn:Hu.
    apply set_contents_from_file_step in Hu.
    pose proof (step_attempts_other _ _ _ _ Hu eq_refl) as Ha.
    destruct Hu as [_ _ Hc2 Hb2 _ _ _ _].
    destruct r as [[]|e]; simpl; repeat split; congruence.
Qed.

(** X8: whatever [s3_bucket] raises is no boto client or server error, and
    a resolution that raised memoizes no bucket. *)
Theorem failed_resolution_is_never_a_boto_error cfg w e w' :
  s3_bucket cfg w = (Raise e, w') ->
  is_BotoClientError_or_BotoServerError e = false /\ cached_bucket w' = None.
Proof.
  intros H. apply s3_bucket_outcome in H.
  inversion H as
    [ | | e0 wc ? ? Hc
      | | conn wc e0 w1 ? ? Hc H1 ?
      | conn wc w1 e0 w2 ? ? Hc H1 ? H2
      | | conn wc w1 w2 e0 w3 ? ? Hc H1 ? H2 H3 ]; subst;
    rewrite ?translated_not_boto.
  - done.
  - split; [by apply (connection_outcome_raise _ _ _ _ Hc)|].
    apply connection_outcome_frame in Hc as (_ & _ & _ & _ & Hcb). congruence.
  - split; [done|]. apply connection_outcome_frame in Hc as (_ & _ & _ & _ & Hcb).
    rewrite (step_cached_bucket _ _ _ _ H1). congruence.
  - split; [done|]. apply connection_outcome_frame in Hc as (_ & _ & _ & _ & Hcb).
    rewrite (step_cached_bucket _ _ _ _ H2), (step_cached_bucket _ _ _ _ H1). congruence.
  - split; [done|]. apply connection_outcome_frame in Hc as (_ & _ & _ & _ & Hcb).
    rewrite (step_cached_bucket _ _ _ _ H3), (step_cached_bucket _ _ _ _ H2),
      (step_cached_bucket _ _ _ _ H1). congruence.
Qed.


Lemma partition_absent sep s :
  str_contains sep s = false -> Py.partition sep s = (s, "", "").
Proof.
  induction s as [|x s IH]; simpl; [done|].
  intros H. apply orb_false_iff in H as [Hx Hs]. rewrite Hx, (IH Hs). done.
Qed.

Lemma partition_present sep a b :
  str_contains sep a = false -> Py.partition sep (a +:+ String sep b) = (a, String sep "", b).
Proof.
  induction a as [|x a IH]; intros H.
  - change ("" +:+ String sep b) with (String sep b). simpl. by rewrite Ascii.eqb_refl.
  - change (String x a +:+ String sep b) with (String x (a +:+ String sep b)). simpl in *.
    apply orb_false_iff in H as [Hx Hs]. rewrite Hx, (IH Hs). done.
Qed.

Lemma connection_logged cfg w r w' c :
  cached_connection w = None ->
  boto_installed w = true ->
  endpoint_call cfg w = Ok c ->
  s3_connection cfg w = (r, w') ->
  exists x, log w' = log w ++ [mkEvent c x].
Proof.
  intros Hcc Hboto Hep H. apply s3_connection_outcome in H.
  inversion H as [ | | | c0 e w0 ? ? Hc Hs | c0 conn w0 ? ? Hc Hs ]; subst; try congruence.
  - exists (Some e). rewrite Hep in Hc. injection Hc as <-. apply Hs.
  - exists None. rewrite Hep in Hc. injection Hc as <-. simpl. apply Hs.
Qed.

(** X9: on a first connection whose endpoint has no port, the call to
    [S3Connection] takes the whole network location as the host, port 443 and
    a secure transport when the scheme is [https], port 80 and a plain one
    otherwise, and the subdomain calling format exactly for the host
    [s3.amazonaws.com]. *)
Theorem connection_uses_the_default_port cfg w endpoint r w' :
  cached_connection w = None ->
  boto_installed w = true ->
  py_urlparse (pylib w) (s3_cache_url cfg) = Ok endpoint ->
  str_contains ":" (netloc endpoint) = false ->
  s3_connection cfg w = (r, w') ->
  exists x,
    log w' = log w ++
      [mkEvent (call_S3Connection (netloc endpoint)
                  (if String.eqb (scheme endpoint) "https" then 443 else 80)
                  (String.eqb (scheme endpoint) "https")
                  (if String.eqb (netloc endpoint) "s3.amazonaws.com"
                   then SubdomainCallingFormat else OrdinaryCallingFormat)) x].
Proof.
  intros Hcc Hboto Hu Hn. apply connection_logged; [done..|].
  unfold endpoint_call. rewrite Hu, (partition_absent _ _ Hn). reflexivity.
Qed.

(** X10: on a first connection whose endpoint reads [host:port] with a
    port that [int] accepts, the call to [S3Connection] takes that host and
    that port number. *)
Theorem connection_uses_the_given_port cfg w endpoint host port number r w' :
  cached_connection w = None ->
  boto_installed w = true ->
  py_urlparse (pylib w) (s3_cache_url cfg) = Ok endpoint ->
  netloc endpoint = host +:+ String ":" port ->
  str_contains ":" host = false ->
  Py.str_truthy port = true ->
  py_int (pylib w) port = Ok number ->
  s3_connection cfg w = (r, w') ->
  exists x,
    log w' = log w ++
      [mkEvent (call_S3Connection host number
                  (String.eqb (scheme endpoint) "https")
                  (if String.eqb host "s3.amazonaws.com"
                   then SubdomainCallingFormat else OrdinaryCallingFormat)) x].
Proof.
  intros Hcc Hboto Hu Hn Hh Hp Hi. apply connection_logged; [done..|].
  unfold endpoint_call. rewrite Hu, Hn, (partition_present _ _ _ Hh).
  unfold connection_port. rewrite Hp. simpl. by rewrite Hi.
Qed.

Lemma translated_other e :
  is_BotoClientError_or_BotoServerError e = false -> translated e = e.
Proof. unfold translated. by intros ->. Qed.

Lemma unreadable_endpoint_stops_resolution cfg w e :
  cached_connection w = None ->
  cached_bucket w = None ->
  endpoint_call cfg w = Raise e ->
  is_BotoClientError_or_BotoServerError e = false ->
  boto_installed w = true ->
  s3_bucket cfg w = (Raise e, w).
Proof.
  intros Hcc Hcb Hep Hnb Hboto.
  destruct (s3_bucket cfg w) as [r w'] eqn:H. apply s3_bucket_outcome in H.
  inversion H; subst; try congruence.
  all: match goal with
       | Hc : connection_outcome _ _ _ _ |- _ => inversion Hc; subst; try congruence
       end.
  match goal with
  | Hx : endpoint_call _ _ = Raise _ |- _ => rewrite Hep in Hx; injection Hx as <-
  end.
  by rewrite translated_other.
Qed.

(** X11: when the port of the endpoint is not a number, an operation that
    needs a first connection raises the exception of [int] itself (as long as
    it is no boto error) and leaves the world as it was: no call is made and
    nothing is memoized. *)
Theorem unreadable_port_surfaces_unchanged cfg o w endpoint host port e :
  cached_connection w = None ->
  cached_bucket w = None ->
  reaches_bucket cfg o w ->
  py_urlparse (pylib w) (s3_cache_url cfg) = Ok endpoint ->
  netloc endpoint = host +:+ String ":" port ->
  str_contains ":" host = false ->
  Py.str_truthy port = true ->
  py_int (pylib w) port = Raise e ->
  is_BotoClientError_or_BotoServerError e = false ->
  perform cfg o w = (Raise e, w).
Proof.
  intros Hcc Hcb (Hcfg & Hboto & Ho) Hu Hn Hh Hp Hi Hnb.
  assert (s3_bucket cfg w = (Raise e, w)) as Hb.
  { apply unreadable_endpoint_stops_resolution; [done..| |done|done].
    unfold endpoint_call. rewrite Hu, Hn, (partition_present _ _ _ Hh).
    unfold connection_port. rewrite Hp. simpl. by rewrite Hi. }
  destruct o as [filename|filename handle]; unfold perform.
  - unfold get, bind. by rewrite check_prerequisites_run, Hcfg, Hboto, Hb.
  - unfold put. rewrite Ho. unfold bind.
    rewrite check_prerequisites_run, Hcfg, Hboto. unfold import_boto. simpl.
    by rewrite Hboto, Hb.
Qed.



Section Keeps.
Context (R : relation (gmap string (gmap string bytes))) `{!PreOrder R}.

Lemma keeps_ret {A} (a : A) : keeps R (ret a).
Proof. intros w r w' [= <- <-]. reflexivity. Qed.

Lemma keeps_raise {A} e : keeps R (raise (A:=A) e).
Proof. intros w r w' [= <- <-]. reflexivity. Qed.

Lemma keeps_bind {A B} (m : M A) (k : A -> M B) :
  keeps R m -> (forall a, keeps R (k a)) -> keeps R (bind m k).
Proof.
  intros Hm Hk w r w'. unfold bind.
  destruct (m w) as [[a|e] w1] eqn:H1.
  - intros H2. etrans; [exact (Hm _ _ _ H1)|exact (Hk _ _ _ _ H2)].
  - intros [= <- <-]. exact (Hm _ _ _ H1).
Qed.

Lemma keeps_try_except {A} (body : M A) classes handler :
  keeps R body -> (forall e, keeps R (handler e)) -> keeps R (try_except body classes handler).
Proof.
  intros Hm Hk w r w'. unfold try_except.
  destruct (body w) as [[a|e] w1] eqn:H1.
  - intros [= <- <-]. exact (Hm _ _ _ H1).
  - destruct (classes e).
    + intros H2. etrans; [exact (Hm _ _ _ H1)|exact (Hk _ _ _ _ H2)].
    + intros [= <- <-]. exact (Hm _ _ _ H1).
Qed.

(** A computation that leaves the store as it is. *)
Lemma keeps_same {A} (m : M A) :
  (forall w r w', m w = (r, w') -> buckets w' = buckets w) -> keeps R m.
Proof. intros H w r w' Hm. rewrite (H _ _ _ Hm). reflexivity. Qed.

Lemma keeps_state_test {A} (test : World -> bool) (m1 m2 : M A) :
  keeps R m1 -> keeps R m2 -> keeps R (fun w => (if test w then m1 else m2) w).
Proof. intros H1 H2 w r w'. destruct (test w); [apply H1|apply H2]. Qed.

Lemma keeps_transport {A} c (normal : M A) :
  keeps R normal -> keeps R (Boto.transport c normal).
Proof.
  intros Hn w r w'. unfold Boto.transport, Boto.next_fault.
  destruct (Boto.failure_at 0 w).
  - intros [= <- <-]. reflexivity.
  - destruct (normal _) as [[a|e] w2] eqn:H2; intros [= <- <-];
      exact (Hn _ _ _ H2).
Qed.

Lemma keeps_s3_connection cfg : keeps R (s3_connection cfg).
Proof.
  unfold s3_connection. apply keeps_state_test.
  2:{ apply keeps_same. unfold read_cached_connection. intros w r w' H.
      by repeat case_match; simplify_eq. }
  apply keeps_bind.
  { apply keeps_same. unfold import_boto. intros w r w' H.
    by repeat case_match; simplify_eq. }
  intros _. apply keeps_bind.
  2:{ intros _. apply keeps_same. unfold read_cached_connection. intros w r w' H.
      by repeat case_match; simplify_eq. }
  apply keeps_try_except; [|intros e; apply keeps_raise].
  apply keeps_bind; [apply keeps_same; by intros w r w' [= <- <-]|].
  intros ep. destruct (Py.partition ":" (netloc ep)) as [[host sep] port].
  apply keeps_bind.
  { apply keeps_same. intros w r w'. rewrite connection_port_pure. by intros [= <- <-]. }
  intros p. apply keeps_bind.
  { apply keeps_transport, keeps_ret. }
  intros c. apply keeps_same. by intros w r w' [= <- <-].
Qed.

Lemma keeps_get_bucket conn name : keeps R (Boto.get_bucket conn name).
Proof.
  apply keeps_transport, keeps_same. intros w r w' H. by repeat case_match; simplify_eq.
Qed.

Lemma keeps_s3_bucket cfg :
  (s3_cache_create_bucket cfg = true ->
   forall conn, keeps R (Boto.create_bucket conn (s3_cache_bucket cfg))) ->
  keeps R (s3_bucket cfg).
Proof.
  intros Hcreate.
  assert (keeps R read_cached_bucket) as Hread.
  { apply keeps_same. unfold read_cached_bucket. intros w r w' H.
    by repeat case_match; simplify_eq. }
  assert (forall b : Bucket,
            keeps R (fun w => (Ok tt, set_cached_bucket (Some b) w))) as Hset.
  { intros b. apply keeps_same. by intros w r w' [= <- <-]. }
  unfold s3_bucket. apply keeps_state_test; [|exact Hread].
  apply keeps_bind.
  { apply keeps_same. unfold import_boto. intros w r w' H.
    by repeat case_match; simplify_eq. }
  intros _. apply keeps_bind; [|intros _; exact Hread].
  apply keeps_try_except; [|intros e; apply keeps_raise].
  apply keeps_try_except.
  - apply keeps_bind; [apply keeps_s3_connection|]. intros conn.
    apply keeps_bind; [apply keeps_get_bucket|]. exact Hset.
  - intros e. destruct (bool_decide (status_of e = Some 404)); simpl;
      [|apply keeps_raise].
    destruct (s3_cache_create_bucket cfg); [|apply keeps_raise].
    apply keeps_bind; [apply keeps_s3_connection|]. intros conn.
    apply keeps_bind; [by apply Hcreate|]. intros _.
    apply keeps_bind; [apply keeps_s3_connection|]. intros conn'.
    apply keeps_bind; [apply keeps_get_bucket|]. exact Hset.
Qed.

Lemma keeps_get cfg filename :
  (s3_cache_create_bucket cfg = true ->
   forall conn, keeps R (Boto.create_bucket conn (s3_cache_bucket cfg))) ->
  keeps R (get cfg filename).
Proof.
  intros Hcreate. unfold get.
  apply keeps_bind.
  { apply keeps_same. intros w r w'. rewrite check_prerequisites_run. by intros [= <- <-]. }
  intros _. apply keeps_bind; [by apply keeps_s3_bucket|]. intros b.
  apply keeps_bind.
  { apply keeps_same. apply get_key_buckets. }
  intros [k|]; [|apply keeps_ret].
  apply keeps_bind.
  { apply keeps_same. unfold Fs.makedirs. intros w r w' H.
    by repeat case_match; simplify_eq. }
  intros _. apply keeps_bind; [|intros _; apply keeps_ret].
  apply keeps_same. unfold Boto.get_contents_to_filename, Boto.next_fault.
  intros w r w' H. by repeat case_match; simplify_eq.
Qed.
End Keeps.



#[global] Instance created_at_most_preorder cfg : PreOrder (created_at_most cfg).
Proof.
  split.
  - intros bs. by left.
  - intros a b c [->|(n & Hn & Ha & ->)] [->|(m & Hm & Hb & ->)].
    + by left.
    + right. by exists m.
    + right. by exists n.
    + assert (m = n) as -> by congruence. by rewrite lookup_insert_eq in Hb.
Qed.

#[global] Instance store_unchanged_preorder : PreOrder store_unchanged.
Proof.
  split.
  - by intros bs.
  - intros a b c. unfold store_unchanged. congruence.
Qed.

Lemma create_bucket_creates_at_most cfg conn :
  keeps (created_at_most cfg) (Boto.create_bucket conn (s3_cache_bucket cfg)).
Proof.
  apply keeps_transport; [apply _|]. intros w r w' H.
  destruct (s3_cache_bucket cfg) as [n|] eqn:Hn; [|injection H as <- <-; by left].
  destruct (buckets w !! n) eqn:Hb; injection H as <- <-; [by left|].
  right. by exists n.
Qed.

(** X12: [get] changes the remote store at most by adding the configured
    bucket, empty, where it was missing; every bucket that exists keeps its
    objects. *)
Theorem get_creates_at_most_the_bucket cfg filename w :
  created_at_most cfg (buckets w) (buckets (snd (get cfg filename w))) /\
  forall n objs,
    buckets w !! n = Some objs -> buckets (snd (get cfg filename w)) !! n = Some objs.
Proof.
  assert (created_at_most cfg (buckets w) (buckets (snd (get cfg filename w)))) as H.
  { destruct (get cfg filename w) as [r w'] eqn:Hg.
    eapply (keeps_get (created_at_most cfg)); [|exact Hg].
    intros _ conn. apply create_bucket_creates_at_most. }
  split; [exact H|]. intros n objs Hn.
  destruct H as [->|(m & _ & Hm & ->)]; [done|].
  rewrite lookup_insert_ne; [done|]. congruence.
Qed.

(** X13: without the auto-create flag, [get] leaves the remote store as it
    was. *)
Theorem get_without_auto_create_leaves_the_store cfg filename w :
  s3_cache_create_bucket cfg = false ->
  buckets (snd (get cfg filename w)) = buckets w.
Proof.
  intros Hflag. destruct (get cfg filename w) as [r w'] eqn:Hg.
  eapply (keeps_get store_unchanged); [|exact Hg]. congruence.
Qed.




Ltac compute_it := vm_compute; reflexivity.

Lemma distinct_filenames_get_distinct_keys_witness :
  "a.tar.gz" <> "b.tar.gz" /\
  get_cache_key Sample.config "a.tar.gz" <> get_cache_key Sample.config "b.tar.gz".
Proof.
  split; [discriminate|].
  apply (distinct_filenames_get_distinct_keys Sample.config "a.tar.gz" "b.tar.gz").
  discriminate.
Defined.

Lemma put_stores_the_archive_witness :
  exists w',
    put Sample.config "new.tar.gz" Scenario.wheel Sample.world = (Ok tt, w') /\
    Boto.lookup_object (Some "wheels") (get_cache_key Sample.config "new.tar.gz") w'
      = Some Scenario.wheel /\
    (forall key, key <> get_cache_key Sample.config "new.tar.gz" ->
       Boto.lookup_object (Some "wheels") key w' = Scenario.objects !! key) /\
    (forall m, m <> "wheels" -> buckets w' !! m = buckets Sample.world_resolved !! m).
Proof.
  apply (put_stores_the_archive Sample.config "new.tar.gz" Scenario.wheel Sample.world
           Sample.bucket Sample.world_resolved "wheels" Scenario.objects); compute_it.
Defined.

Lemma put_then_get_round_trip_witness :
  exists w' w'',
    put Sample.config "new.tar.gz" Scenario.wheel Sample.world = (Ok tt, w') /\
    get Sample.config "new.tar.gz" w' =
      (Ok (Some (Py.os_path_join (binary_cache Sample.config) "new.tar.gz")), w'') /\
    files w'' !! Py.os_path_join (binary_cache Sample.config) "new.tar.gz"
      = Some Scenario.wheel.
Proof.
  apply (put_then_get_round_trip Sample.config "new.tar.gz" Scenario.wheel Sample.world
           Sample.bucket Sample.world_resolved "wheels" Scenario.objects); compute_it.
Defined.

Lemma put_twice_keeps_the_last_witness :
  exists w' w'',
    put Sample.config "new.tar.gz" Sample.archive Sample.world = (Ok tt, w') /\
    put Sample.config "new.tar.gz" Scenario.wheel w' = (Ok tt, w'') /\
    Boto.lookup_object (Some "wheels") (get_cache_key Sample.config "new.tar.gz") w''
      = Some Scenario.wheel /\
    buckets w'' =
      <["wheels" := <[get_cache_key Sample.config "new.tar.gz" := Scenario.wheel]>
                      Scenario.objects]> (buckets Sample.world_resolved).
Proof.
  apply (put_twice_keeps_the_last Sample.config "new.tar.gz" Sample.archive Scenario.wheel
           Sample.world Sample.bucket Sample.world_resolved "wheels" Scenario.objects);
    compute_it.
Defined.

Lemma get_returns_only_downloaded_files_witness :
  "/var/cache/pip-accel/pkg-1.0.tar.gz"
    = Py.os_path_join (binary_cache Sample.config) "pkg-1.0.tar.gz" /\
  exists b data,
    cached_bucket (snd (get Sample.config "pkg-1.0.tar.gz" Sample.world)) = Some b /\
    Boto.lookup_object (bucket_name b) (get_cache_key Sample.config "pkg-1.0.tar.gz")
      (snd (get Sample.config "pkg-1.0.tar.gz" Sample.world)) = Some data /\
    files (snd (get Sample.config "pkg-1.0.tar.gz" Sample.world))
      !! "/var/cache/pip-accel/pkg-1.0.tar.gz" = Some data /\
    Py.os_path_dirname "/var/cache/pip-accel/pkg-1.0.tar.gz"
      ∈ dirs (snd (get Sample.config "pkg-1.0.tar.gz" Sample.world)).
Proof.
  apply (get_returns_only_downloaded_files Sample.config "pkg-1.0.tar.gz" Sample.world
           "/var/cache/pip-accel/pkg-1.0.tar.gz"
           (snd (get Sample.config "pkg-1.0.tar.gz" Sample.world))).
  compute_it.
Defined.

Lemma memoized_bucket_is_reused_witness :
  cached_bucket (run_operation Sample.config (op_get "other.tar.gz") Sample.world_resolved)
    = Some Sample.bucket /\
  cached_connection (run_operation Sample.config (op_get "other.tar.gz") Sample.world_resolved)
    = cached_connection Sample.world_resolved /\
  attempts is_resolution
    (log (run_operation Sample.config (op_get "other.tar.gz") Sample.world_resolved))
    = attempts is_resolution (log Sample.world_resolved).
Proof.
  apply (memoized_bucket_is_reused Sample.config (op_get "other.tar.gz")
           Sample.world_resolved Sample.bucket).
  compute_it.
Defined.

Lemma failed_resolution_is_never_a_boto_error_witness :
  is_BotoClientError_or_BotoServerError CacheBackendError = false /\
  cached_bucket (snd (s3_bucket Sample.config Scenario.world_refused)) = None.
Proof.
  apply (failed_resolution_is_never_a_boto_error Sample.config Scenario.world_refused
           CacheBackendError (snd (s3_bucket Sample.config Scenario.world_refused))).
  compute_it.
Defined.

Lemma connection_uses_the_default_port_witness :
  exists x,
    log (snd (s3_connection Sample.config Sample.world)) =
      log Sample.world ++
      [mkEvent (call_S3Connection (netloc (mkParseResult "https" "s3.amazonaws.com"))
                  (if String.eqb (scheme (mkParseResult "https" "s3.amazonaws.com")) "https"
                   then 443 else 80)
                  (String.eqb (scheme (mkParseResult "https" "s3.amazonaws.com")) "https")
                  (if String.eqb (netloc (mkParseResult "https" "s3.amazonaws.com"))
                       "s3.amazonaws.com"
                   then SubdomainCallingFormat else OrdinaryCallingFormat)) x].
Proof.
  apply (connection_uses_the_default_port Sample.config Sample.world
           (mkParseResult "https" "s3.amazonaws.com")
           (fst (s3_connection Sample.config Sample.world))
           (snd (s3_connection Sample.config Sample.world))); compute_it.
Defined.

Lemma connection_uses_the_given_port_witness :
  exists x,
    log (snd (s3_connection Sample.config_create Sample.world_empty_store)) =
      log Sample.world_empty_store ++
      [mkEvent (call_S3Connection "localhost" 9000
                  (String.eqb (scheme (mkParseResult "http" "localhost:9000")) "https")
                  (if String.eqb "localhost" "s3.amazonaws.com"
                   then SubdomainCallingFormat else OrdinaryCallingFormat)) x].
Proof.
  apply (connection_uses_the_given_port Sample.config_create Sample.world_empty_store
           (mkParseResult "http" "localhost:9000") "localhost" "9000" 9000
           (fst (s3_connection Sample.config_create Sample.world_empty_store))
           (snd (s3_connection Sample.config_create Sample.world_empty_store))); compute_it.
Defined.

Lemma unreadable_port_surfaces_unchanged_witness :
  perform Scenario.config_bad_port (op_get "pkg-1.0.tar.gz") Scenario.world_bad_port
    = (Raise ValueError, Scenario.world_bad_port).
Proof.
  apply (unreadable_port_surfaces_unchanged Scenario.config_bad_port (op_get "pkg-1.0.tar.gz")
           Scenario.world_bad_port (mkParseResult "http" "localhost:http")
           "localhost" "http" ValueError); try compute_it.
  repeat split.
Defined.

Lemma get_without_auto_create_leaves_the_store_witness :
  buckets (snd (get Sample.config "pkg-1.0.tar.gz" Sample.world)) = buckets Sample.world.
Proof.
  apply (get_without_auto_create_leaves_the_store Sample.config "pkg-1.0.tar.gz" Sample.world).
  compute_it.
Defined.

